(** * jebio.py: a shallow embedding of the JEB.IO API wrapper

    The script [scripts/jebio/jebio.py] is modelled function by function:
    [getApikey], [check], [download] and the entry-list handling of the
    command-line front end ([__main__]).  Effects are made explicit by a
    small monad: a state over a [World] (the working directory and the
    process environment), Python exceptions as an error result, and a trace
    of the observable effects (HTTP requests, file writes and deletions).

    The collaborators the script imports (requests' transport, the JSON
    decoder, hashlib's sha256 and zipfile) are parameters gathered in the
    type class [Backend], together with the module global [APIKEY]. *)

From stdpp Require Import base gmap strings list pretty.
From Stdlib Require Import String Ascii ZArith.
Open Scope string_scope.
Set Warnings "-register-all".

(** ** Python values *)

(** Decoded JSON values, as [json.loads] returns them (numbers are
    integers: the service sends integer codes; floats are not modelled).
    An object is the decoded dict, keys in insertion order. *)
Inductive Json :=
| JNull
| JBool (b : bool)
| JNum (z : Z)
| JStr (s : string)
| JArr (l : list Json)
| JObj (kvs : list (string * Json)).

(** Python truthiness ([if v:] / [not v]). *)
Definition truthy (v : Json) : bool :=
  match v with
  | JNull => false
  | JBool b => b
  | JNum z => negb (Z.eqb z 0)
  | JStr s => negb (String.eqb s "")
  | JArr l => negb (bool_decide (l = []))
  | JObj kvs => negb (bool_decide (kvs = []))
  end.

(** [v != 0] in Python: [False == 0] and only numbers equal to zero
    compare equal to [0]. *)
Definition py_ne_zero (v : Json) : bool :=
  match v with
  | JNum z => negb (Z.eqb z 0)
  | JBool b => b
  | _ => true
  end.

Fixpoint assoc (k : string) (kvs : list (string * Json)) : option Json :=
  match kvs with
  | [] => None
  | (k', v) :: rest => if String.eqb k k' then Some v else assoc k rest
  end.

(** [str(v)], as used by ['%s' % v].  Non-empty lists and dicts are never
    formatted by [download] ([os.path.isfile] raises on them first). *)
Definition py_str (v : Json) : string :=
  match v with
  | JNull => "None"
  | JBool true => "True"
  | JBool false => "False"
  | JNum z => pretty z
  | JStr s => s
  | JArr [] => "[]"
  | JArr _ => "[...]"
  | JObj [] => "{}"
  | JObj _ => "{...}"
  end.

(** ASCII part of [str.lower]. *)
Definition lower_char (c : ascii) : ascii :=
  let n := nat_of_ascii c in
  if (65 <=? n)%nat && (n <=? 90)%nat then ascii_of_nat (n + 32) else c.

(** [str.lower] on ASCII text; other characters are kept as they are,
    where Python also maps non-ASCII letters (the Kelvin sign lowers to
    [k]). *)
Definition lower (s : string) : string :=
  string_of_list_ascii (map lower_char (list_ascii_of_string s)).

(** ** Exceptions, world, effects *)

Inductive PyExc :=
| RaisedStr (payload : string)
    (** [raise '...']: raising a [str], which Python 3 rejects with
        [TypeError: exceptions must derive from BaseException]; the payload
        records which [raise] statement fired *)
| TypeError (what : string)
| KeyError (key : string)
| IndexError
| ConnectionError
| JSONDecodeError
| BadZipFile
| RuntimeError (msg : string)
| FileNotFoundError (path : string)
| IsADirectoryError (path : string)
| SystemExit (code : Z).

Inductive Result (A : Type) :=
| Ok (a : A)
| Err (e : PyExc).
Arguments Ok {A} a.
Arguments Err {A} e.

(** The working directory (regular files: name to content) and
    [os.environ]. *)
Record World := mkWorld {
  fs : gmap string string;
  environ : gmap string string
}.

Inductive Event :=
| EvGet (url : string)
| EvWrite (path : string)
| EvUnlink (path : string)
| EvMkdir (path : string)
    (** the directory [path] (and its parents) exists afterwards:
        [os.makedirs] or [os.mkdir] where it is missing *)
.

#[global] Instance Event_eq_dec : EqDecision Event.
Proof. solve_decision. Defined.

Definition M (A : Type) : Type := World -> Result A * World * list Event.

Definition ret {A} (a : A) : M A := fun w => (Ok a, w, []).
Definition raise {A} (e : PyExc) : M A := fun w => (Err e, w, []).

Definition bind {A B} (m : M A) (f : A -> M B) : M B := fun w =>
  match m w with
  | (Ok a, w1, t1) =>
      match f a w1 with
      | (r, w2, t2) => (r, w2, (t1 ++ t2)%list)
      end
  | (Err e, w1, t1) => (Err e, w1, t1)
  end.

Notation "x <- m ;; k" := (bind m (fun x => k))
  (at level 95, m at next level, right associativity).

(** [try: m  except Exception: pass] (the traceback print is not
    modelled). *)
Definition try_ (m : M unit) : M unit := fun w =>
  match m w with
  | (Ok _, w1, t1) => (Ok tt, w1, t1)
  | (Err _, w1, t1) => (Ok tt, w1, t1)
  end.

Definition getenv (k : string) : M (option string) := fun w =>
  (Ok (environ w !! k), w, []).

(** [os.path.isfile] on a path string. *)
Definition isfile (p : string) : M bool := fun w =>
  (Ok (negb (String.eqb p "") && bool_decide (is_Some (fs w !! p))), w, []).

Definition read_file (p : string) : M string := fun w =>
  match fs w !! p with
  | Some c => (Ok c, w, [])
  | None => (Err (FileNotFoundError p), w, [])
  end.

(** [open(p, 'wb').write(c)].  The refusals of the operating system
    (missing parent directory, a directory at [p], a NUL byte in [p]) are
    not modelled, so the model's successful runs include every successful
    run of the script, with the same effects. *)
Definition write_file (p c : string) : M unit := fun w =>
  (Ok tt, mkWorld (<[p := c]> (fs w)) (environ w), [EvWrite p]).

(** [os.makedirs(p)] / [os.mkdir(p)] when [p] is missing; directories are
    not part of [fs], which holds the regular files. *)
Definition ensure_dir (p : string) : M unit := fun w =>
  (Ok tt, w, [EvMkdir p]).

(** [os.unlink]. *)
Definition unlink (p : string) : M unit := fun w =>
  match fs w !! p with
  | Some _ => (Ok tt, mkWorld (delete p (fs w)) (environ w), [EvUnlink p])
  | None => (Err (FileNotFoundError p), w, [])
  end.

(** ** External collaborators *)

(** An HTTP response of [requests]: status code and body bytes. *)
Record HttpResp := mkResp { status : Z; content : string }.

(** Reading one member of a zip archive ([ZipFile.open(member, pwd)] and
    the copy of [shutil.copyfileobj] in [_extract_member]). *)
Inductive ZipOpen :=
| ZOk (data : string)
    (** the whole member *)
| ZOpenErr (e : PyExc)
    (** raised by [open]: [RuntimeError] for a wrong or missing password,
        [BadZipFile] for a broken local header *)
| ZCopyErr (partial : string) (e : PyExc)
    (** raised while copying, after [partial] was written ([BadZipFile]
        for a CRC mismatch, [EOFError]) *).

(** An entry of the central directory: [ZipInfo.filename] (cut at a NUL
    byte, as [ZipInfo] does) and how reading it with a password goes. *)
Record ZipEntry := mkEntry {
  zname : string;
  zopen : string -> ZipOpen
}.

Class Backend := {
  http : string -> option HttpResp;
    (** [requests.get url]; [None] is a connection failure *)
  json_loads : string -> option Json;
    (** [r.json()]; [None] is a body that is not JSON *)
  sha256_hexdigest : string -> string;
  zip_read : string -> option (list ZipEntry);
    (** [ZipFile(path)] over the archive bytes: the central directory in
        order ([namelist()] is the list of their names), [None] when
        [ZipFile] raises [BadZipFile] *)
  APIKEY : string
    (** the module global [APIKEY] *)
}.

Section Client.
Context `{B : Backend}.

Definition BASE : string := "https://www.pnfsoftware.com/io/api".

Definition check_url (key h : string) : string :=
  BASE ++ "/file/check?apikey=" ++ key ++ "&h=" ++ h.

Definition download_url (key h : string) : string :=
  BASE ++ "/file/download?apikey=" ++ key ++ "&h=" ++ h.

Definition requests_get (url : string) : M HttpResp := fun w =>
  match http url with
  | Some r => (Ok r, w, [EvGet url])
  | None => (Err ConnectionError, w, [EvGet url])
  end.

(** [r.ok]: [raise_for_status] does not raise, i.e. the status is not in
    400..599. *)
Definition resp_ok (r : HttpResp) : bool :=
  negb ((400 <=? status r)%Z && (status r <? 600)%Z).

Definition resp_json (r : HttpResp) : M Json :=
  match json_loads (content r) with
  | Some v => ret v
  | None => raise JSONDecodeError
  end.

Definition getApikey (apikey : string) : M string :=
  if negb (String.eqb apikey "") then ret apikey else
  e <- getenv "JEBIO_APIKEY" ;;
  match e with
  | Some v => ret v
  | None =>
      if negb (String.eqb APIKEY "") then ret APIKEY
      else raise (RaisedStr "Your need a JEB.IO API key to execute this command.")
  end.

Definition check (h apikey : string) : M Json :=
  key <- getApikey apikey ;;
  r <- requests_get (check_url key h) ;;
  resp_json r.

(** [r['code']]; only reached on a truthy [r]. *)
Definition py_getitem (r : Json) (k : string) : M Json :=
  match r with
  | JObj kvs =>
      match assoc k kvs with
      | Some v => ret v
      | None => raise (KeyError k)
      end
  | _ => raise (TypeError "not subscriptable by str")
  end.

(** [r.get(k)] on the dict [r] ([None] when absent). *)
Definition dict_get (r : Json) (k : string) : Json :=
  match r with
  | JObj kvs => match assoc k kvs with Some v => v | None => JNull end
  | _ => JNull
  end.

(** [os.path.isfile(v)] on any value: an integer (or bool) is a file
    descriptor, none of which is a regular file of the working directory;
    lists and dicts make [os.stat] raise. *)
Definition py_isfile (v : Json) : M bool :=
  match v with
  | JStr s => isfile s
  | JNull | JBool _ | JNum _ => ret false
  | JArr _ | JObj _ => raise (TypeError "stat: path should be string, bytes, os.PathLike or integer")
  end.

(** [h0 + '.zip']. *)
Definition py_add_zip (v : Json) : M string :=
  match v with
  | JStr s => ret (s ++ ".zip")
  | _ => raise (TypeError "unsupported operand type(s) for +")
  end.

(** Lines 56-63 of [download]: [h0] names an existing file whose sha256
    equals [h0] case-insensitively. *)
Definition already_present (h0 : Json) : M bool :=
  if truthy h0 then
    b <- py_isfile h0 ;;
    if b then
      match h0 with
      | JStr s =>
          data <- read_file s ;;
          ret (String.eqb (lower (sha256_hexdigest data)) (lower s))
      | _ => ret false
      end
    else ret false
  else ret false.

(** [ZipFile(outpath)]. *)
Definition zip_open (archive : string) : M (list ZipEntry) :=
  match zip_read archive with
  | Some ents => ret ents
  | None => raise BadZipFile
  end.

Fixpoint split_sep_aux (sep : ascii) (cur : list ascii) (l : list ascii)
    : list string :=
  match l with
  | [] => [string_of_list_ascii (rev cur)]
  | c :: t =>
      if Ascii.eqb c sep
      then string_of_list_ascii (rev cur) :: split_sep_aux sep [] t
      else split_sep_aux sep (c :: cur) t
  end.

(** [s.split(sep)] for a one-character separator. *)
Definition split_sep (sep : ascii) (s : string) : list string :=
  split_sep_aux sep [] (list_ascii_of_string s).

(** [sep.join(parts)]. *)
Fixpoint join_with (sep : string) (parts : list string) : string :=
  match parts with
  | [] => ""
  | [x] => x
  | x :: rest => x ++ sep ++ join_with sep rest
  end.

(** The target of a member in [ZipFile._extract_member], relative to the
    working directory: [os.path.sep.join(x for x in arcname.split('/') if
    x not in ('', os.path.curdir, os.path.pardir))]; a leading [/] and the
    components [.] and [..] are dropped. *)
Definition arcname (name : string) : string :=
  join_with "/"
    (filter (fun x => negb (String.eqb x "" || String.eqb x "." || String.eqb x ".."))
       (split_sep "/" name)).

Fixpoint drop_to_slash (l : list ascii) : list ascii :=
  match l with
  | [] => []
  | c :: t => if Ascii.eqb c "/"%char then l else drop_to_slash t
  end.

(** [os.path.dirname] of a relative path without trailing or doubled
    slashes; [""] is the working directory, which exists. *)
Definition parent_dir (p : string) : string :=
  string_of_list_ascii (rev (tl (drop_to_slash (rev (list_ascii_of_string p))))).

(** [ZipInfo.is_dir()]: [self.filename[-1] == '/'], an [IndexError] on an
    empty name. *)
Definition ends_with_slash (n : string) : bool :=
  match rev (list_ascii_of_string n) with
  | c :: _ => Ascii.eqb c "/"%char
  | [] => false
  end.

Definition zip_is_dir (n : string) : M bool :=
  if String.eqb n "" then raise IndexError else ret (ends_with_slash n).

(** [ZipFile.getinfo(name)]: the last entry of that name. *)
Definition zip_getinfo (ents : list ZipEntry) (n : string) : option ZipEntry :=
  fold_left (fun acc e => if String.eqb (zname e) n then Some e else acc) ents None.

(** [ZipFile._extract_member(name, os.getcwd(), pwd)]. *)
Definition extract_member (pwd : string) (ents : list ZipEntry) (n : string)
    : M unit :=
  match zip_getinfo ents n with
  | None => raise (KeyError n)
  | Some e =>
      let arc := arcname n in
      _ <- (if String.eqb (parent_dir arc) "" then ret tt
            else ensure_dir (parent_dir arc)) ;;
      isdir <- zip_is_dir (zname e) ;;
      if isdir then
        (if String.eqb arc "" then ret tt else ensure_dir arc)
      else
        match zopen e pwd with
        | ZOpenErr ex => raise ex
        | ZOk data =>
            if String.eqb arc "" then raise (IsADirectoryError arc)
            else write_file arc data
        | ZCopyErr part ex =>
            if String.eqb arc "" then raise (IsADirectoryError arc)
            else _ <- write_file arc part ;; raise ex
        end
  end.

Fixpoint extract_names (pwd : string) (ents : list ZipEntry) (names : list string)
    : M unit :=
  match names with
  | [] => ret tt
  | n :: rest => _ <- extract_member pwd ents n ;; extract_names pwd ents rest
  end.

(** [zipfile.extractall(pwd=pwd)]: every name of [namelist()], in order,
    into the working directory. *)
Definition extractall (pwd : string) (ents : list ZipEntry) : M unit :=
  extract_names pwd ents (map zname ents).

(** [zipfile.namelist()[0]]. *)
Definition first_name (ents : list ZipEntry) : M string :=
  match ents with
  | e :: _ => ret (zname e)
  | [] => raise IndexError
  end.

(** [download(h, apikey, extract)]; its Python result is [JNull] ([None])
    or a path string.  [verbose] output is not modelled. *)
Definition download (h apikey : string) (extract : bool) : M Json :=
  if String.eqb h "" then raise (RaisedStr "A hash must be provided") else
  r <- check h apikey ;;
  if negb (truthy r) then ret JNull else
  code <- py_getitem r "code" ;;
  if py_ne_zero code then ret JNull else
  let h0 := dict_get r "sha256hash" in
  present <- already_present h0 ;;
  if present then ret h0 else
  key <- getApikey apikey ;;
  resp <- requests_get (download_url key (py_str h0)) ;;
  if negb (resp_ok resp) || String.eqb (content resp) "" then ret JNull else
  outpath <- py_add_zip h0 ;;
  _ <- write_file outpath (content resp) ;;
  if extract then
    archive <- read_file outpath ;;
    members <- zip_open archive ;;
    _ <- extractall "infected" members ;;
    outpath2 <- first_name members ;;
    _ <- unlink outpath ;;
    ret (JStr outpath2)
  else ret (JStr outpath).

(** ** Command-line front end *)

(** [str.isspace] on ASCII: space, \t \n \v \f \r and the separators
    0x1c..0x1f. *)
Definition is_py_space (c : ascii) : bool :=
  let n := nat_of_ascii c in
  (n =? 32)%nat || ((9 <=? n)%nat && (n <=? 13)%nat)
  || ((28 <=? n)%nat && (n <=? 31)%nat).

Fixpoint lstrip_chars (l : list ascii) : list ascii :=
  match l with
  | c :: t => if is_py_space c then lstrip_chars t else l
  | [] => []
  end.

(** [str.strip()] for the ASCII whitespace; Python also strips non-ASCII
    whitespace such as U+00A0. *)
Definition strip (s : string) : string :=
  string_of_list_ascii
    (rev (lstrip_chars (rev (lstrip_chars (list_ascii_of_string s))))).

(** Universal newlines of a text-mode [open]: [\r\n] and [\r] read as
    [\n]. *)
Fixpoint univ_newlines (l : list ascii) : list ascii :=
  match l with
  | c :: t =>
      if Ascii.eqb c "013"%char then
        match t with
        | c' :: t' =>
            if Ascii.eqb c' "010"%char then "010"%char :: univ_newlines t'
            else "010"%char :: univ_newlines t
        | [] => ["010"%char]
        end
      else c :: univ_newlines t
  | [] => []
  end.

(** [f.readlines()]: each line keeps its terminating newline; a last line
    without one is kept. *)
Fixpoint readlines_aux (cur : list ascii) (l : list ascii) : list string :=
  match l with
  | [] => match cur with [] => [] | _ => [string_of_list_ascii (rev cur)] end
  | c :: t =>
      if Ascii.eqb c "010"%char
      then string_of_list_ascii (rev (c :: cur)) :: readlines_aux [] t
      else readlines_aux (c :: cur) t
  end.

Definition readlines (text : string) : list string :=
  readlines_aux [] (univ_newlines (list_ascii_of_string text)).

(** The [-f] loop body: [line = line.strip()], kept when
    [line and not line.startswith('#')]. *)
Definition list_file_entries (text : string) : list string :=
  filter (fun line => negb (String.eqb line "") && negb (String.prefix "#" line))
    (map strip (readlines text)).

Fixpoint split_comma_aux (cur : list ascii) (l : list ascii) : list string :=
  match l with
  | [] => [string_of_list_ascii (rev cur)]
  | c :: t =>
      if Ascii.eqb c ","%char
      then string_of_list_ascii (rev cur) :: split_comma_aux [] t
      else split_comma_aux (c :: cur) t
  end.

(** [arg.split(',')]. *)
Definition split_comma (arg : string) : list string :=
  split_comma_aux [] (list_ascii_of_string arg).

(** The options loop of [__main__] over getopt's [opts]; the state is
    [(verbose, extract, hlist)]. *)
Fixpoint process_opts (opts : list (string * string)) (verbose extract : bool)
    (hlist : list string) : M (bool * bool * list string) :=
  match opts with
  | [] => ret (verbose, extract, hlist)
  | (o, a) :: rest =>
      if String.eqb o "-v" then process_opts rest true extract hlist
      else if String.eqb o "-x" then process_opts rest verbose true hlist
      else if String.eqb o "-f" then
        text <- read_file a ;;
        process_opts rest verbose extract (hlist ++ list_file_entries text)%list
      else raise (SystemExit (-1))
  end.

(** [list(set(hlist))]: the iteration order of a set is not specified;
    the model takes the order of [elements]. *)
Definition dedup (hlist : list string) : list string :=
  elements (list_to_set hlist : gset string).

(** Lines 131-151 of [__main__]: options, then the positional arguments
    split on commas, then de-duplication. *)
Definition collect_entries (opts : list (string * string)) (args : list string)
    : M (bool * bool * list string) :=
  st <- process_opts opts false false [] ;;
  let '(verbose, extract, hlist) := st in
  ret (verbose, extract, dedup (hlist ++ List.concat (map split_comma args))%list).

Fixpoint check_all (hlist : list string) : M unit :=
  match hlist with
  | [] => ret tt
  | h :: rest => _ <- try_ (_ <- check h "" ;; ret tt) ;; check_all rest
  end.

Fixpoint download_all (extract : bool) (hlist : list string) : M unit :=
  match hlist with
  | [] => ret tt
  | h :: rest =>
      _ <- try_ (_ <- download h "" extract ;; ret tt) ;; download_all extract rest
  end.

(** [__main__] after getopt, for the modes [check] and [download] (printing
    is not modelled; [upload] is not modelled). *)
Definition main (action : string) (opts : list (string * string))
    (args : list string) : M unit :=
  st <- collect_entries opts args ;;
  let '(_, extract, hlist) := st in
  if String.eqb action "check" then check_all hlist
  else if String.eqb action "download" then download_all extract hlist
  else raise (SystemExit (-1)).

End Client.

(** ** A concrete backend, for running the model on sample inputs *)

Definition demo_json (body : string) : option Json :=
  if String.eqb body "found" then
    Some (JObj [("code", JNum 0); ("sha256hash", JStr "abcd")])
  else if String.eqb body "missing" then Some (JObj [("code", JNum 1)])
  else if String.eqb body "nocode" then Some (JObj [("msg", JStr "unknown")])
  else if String.eqb body "nohash" then Some (JObj [("code", JNum 0)])
  else if String.eqb body "{}" then Some (JObj [])
  else None.

(** The service as seen with the key ["K"]. *)
Definition demo_http (url : string) : option HttpResp :=
  if String.eqb url (check_url "K" "abc123") then Some (mkResp 200 "found")
  else if String.eqb url (check_url "K" "gone") then Some (mkResp 200 "missing")
  else if String.eqb url (check_url "K" "weird") then Some (mkResp 200 "nocode")
  else if String.eqb url (check_url "K" "plain") then Some (mkResp 200 "nohash")
  else if String.eqb url (download_url "K" "abcd") then Some (mkResp 200 "ZIPDATA")
  else if String.eqb url (download_url "K" "plain") then Some (mkResp 200 "ZIPDATA")
  else if String.eqb url (download_url "K" "None") then Some (mkResp 200 "ZIPDATA")
  else Some (mkResp 404 "{}").

Definition demo_sha256 (data : string) : string :=
  if String.eqb data "sample" then "ABCD" else "0000".

(** A member encrypted with the password [infected]. *)
Definition demo_member (n data : string) : ZipEntry :=
  mkEntry n (fun pwd => if String.eqb pwd "infected" then ZOk data
                        else ZOpenErr (RuntimeError "Bad password for file")).

Definition demo_zip (archive : string) : option (list ZipEntry) :=
  if String.eqb archive "ZIPDATA"
  then Some [demo_member "sample.apk" "dex"; demo_member "readme.txt" "hi"]
  else None.

Definition demo_backend : Backend := {|
  http := demo_http;
  json_loads := demo_json;
  sha256_hexdigest := demo_sha256;
  zip_read := demo_zip;
  APIKEY := ""
|}.

Definition demo_env : gmap string string := {[ "JEBIO_APIKEY" := "K" ]}.

(** An empty working directory. *)
Definition demo_world : World := mkWorld ∅ demo_env.

(** A working directory that already holds the sample [abcd]. *)
Definition demo_world_cached : World := mkWorld {[ "abcd" := "sample" ]} demo_env.

(** A working directory with a list file for [-f]. *)
Definition demo_world_list : World :=
  mkWorld {[ "list.txt" := "# comment" ++ String "010" ""
                           ++ String "010" "   " ++ String "010" ""
                           ++ "abc123" ++ String "010" "" ]} demo_env.

(** The working directory and trace after downloading [abc123] with
    extraction. *)
Definition demo_after_extract : World :=
  mkWorld (<["readme.txt" := "hi"]> (<["sample.apk" := "dex"]> ∅)) demo_env.

Definition demo_extract_trace : list Event :=
  [EvGet (check_url "K" "abc123"); EvGet (download_url "K" "abcd");
   EvWrite "abcd.zip"; EvWrite "sample.apk"; EvWrite "readme.txt";
   EvUnlink "abcd.zip"].

(** ** Upload and the whole command line *)

(** The effects of the whole script: those of [M], and [requests.post]
    with one multipart field (the part's file name is not modelled). *)
Inductive CliEvent :=
| Ev (e : Event)
| EvPost (url field data : string).

Definition MC (A : Type) : Type := World -> Result A * World * list CliEvent.

Definition retC {A} (a : A) : MC A := fun w => (Ok a, w, []).
Definition raiseC {A} (e : PyExc) : MC A := fun w => (Err e, w, []).

Definition bindC {A C} (m : MC A) (f : A -> MC C) : MC C := fun w =>
  match m w with
  | (Ok a, w1, t1) =>
      match f a w1 with
      | (r, w2, t2) => (r, w2, (t1 ++ t2)%list)
      end
  | (Err e, w1, t1) => (Err e, w1, t1)
  end.

Notation "x <~ m ;; k" := (bindC m (fun x => k))
  (at level 95, m at next level, right associativity).

Definition liftM {A} (m : M A) : MC A := fun w =>
  match m w with
  | (r, w1, t1) => (r, w1, map Ev t1)
  end.

Definition tryC (m : MC unit) : MC unit := fun w =>
  match m w with
  | (Ok _, w1, t1) => (Ok tt, w1, t1)
  | (Err _, w1, t1) => (Ok tt, w1, t1)
  end.

Class PostBackend := {
  http_post : string -> string -> string -> option HttpResp
    (** [requests.post(url, files={field: f})] with the bytes of [f];
        [None] is a connection failure *)
}.

(** [getopt.getopt(args, 'vxf:')], without long options.  [short_has_arg]
    is [None] for a letter that is not an option (GetoptError). *)
Definition short_has_arg (c : ascii) : option bool :=
  if Ascii.eqb c "v"%char then Some false
  else if Ascii.eqb c "x"%char then Some false
  else if Ascii.eqb c "f"%char then Some true
  else None.

Definition opt_name (c : ascii) : string := String "-"%char (String c "").

(** [do_shorts] on the letters of one token: its options, and [Some o]
    when the last option [o] takes its argument from the next token. *)
Fixpoint do_shorts (optstring : list ascii)
    : option (list (string * string) * option string) :=
  match optstring with
  | [] => Some ([], None)
  | c :: rest =>
      match short_has_arg c with
      | None => None
      | Some false =>
          match do_shorts rest with
          | Some (os, pending) => Some ((opt_name c, "") :: os, pending)
          | None => None
          end
      | Some true =>
          match rest with
          | [] => Some ([], Some (opt_name c))
          | _ => Some ([(opt_name c, string_of_list_ascii rest)], None)
          end
      end
  end.

(** [None] is a [GetoptError]. *)
Fixpoint getopt_vxf (args : list string)
    : option (list (string * string) * list string) :=
  match args with
  | [] => Some ([], [])
  | a :: rest =>
      if String.eqb a "--" then Some ([], rest)
      else if String.prefix "--" a then None
      else if String.prefix "-" a && negb (String.eqb a "-") then
        match do_shorts (tl (list_ascii_of_string a)) with
        | None => None
        | Some (os, None) =>
            match getopt_vxf rest with
            | Some (os', args') => Some ((os ++ os')%list, args')
            | None => None
            end
        | Some (os, Some o) =>
            match rest with
            | [] => None
            | optarg :: rest' =>
                match getopt_vxf rest' with
                | Some (os', args') => Some ((os ++ [(o, optarg)] ++ os')%list, args')
                | None => None
                end
            end
        end
      else Some ([], args)
  end.

Section Cli.
Context `{B : Backend} `{P : PostBackend}.

Definition upload_url (key : string) : string :=
  BASE ++ "/file/upload?apikey=" ++ key.

Definition requests_post (url field data : string) : MC HttpResp := fun w =>
  match http_post url field data with
  | Some r => (Ok r, w, [EvPost url field data])
  | None => (Err ConnectionError, w, [EvPost url field data])
  end.

(** [upload(filepath, apikey)]: the key is resolved (for the URL) before
    the file is opened. *)
Definition upload (filepath apikey : string) : MC Json :=
  key <~ liftM (getApikey apikey) ;;
  data <~ liftM (read_file filepath) ;;
  r <~ requests_post (upload_url key) "ufile" data ;;
  liftM (resp_json r).

Fixpoint upload_all (hlist : list string) : MC unit :=
  match hlist with
  | [] => retC tt
  | f :: rest => _ <~ tryC (_ <~ upload f "" ;; retC tt) ;; upload_all rest
  end.

(** [','.join(parts)]. *)
Fixpoint join_comma (parts : list string) : string :=
  match parts with
  | [] => ""
  | [p] => p
  | p :: rest => p ++ "," ++ join_comma rest
  end.

(** [usage()] prints the help text and calls [sys.exit(-1)]. *)
Definition usage {A} : MC A := raiseC (SystemExit (-1)).

(** [__main__] on [sys.argv] (printing is not modelled). *)
Definition main_full (argv : list string) : MC unit :=
  match argv with
  | [] | [_] => usage
  | _ :: action0 :: rest =>
      let action := lower action0 in
      match getopt_vxf rest with
      | None => usage
      | Some (opts, args) =>
          st <~ liftM (collect_entries opts args) ;;
          let '(_, extract, hlist) := st in
          if String.eqb action "check" then liftM (check_all hlist)
          else if String.eqb action "download" then liftM (download_all extract hlist)
          else if String.eqb action "upload" then upload_all hlist
          else usage
      end
  end.

End Cli.

(** The service's upload endpoint answers every upload with a found
    entry. *)
Definition demo_post : PostBackend := {|
  http_post := fun _ _ _ => Some (mkResp 200 "found")
|}.

(** The service with the download endpoint failing for [abcd]. *)
Definition demo_backend_down : Backend := {|
  http := fun url => if String.eqb url (download_url "K" "abcd")
                     then Some (mkResp 503 "") else demo_http url;
  json_loads := demo_json;
  sha256_hexdigest := demo_sha256;
  zip_read := demo_zip;
  APIKEY := ""
|}.



(** A computation that leaves [os.environ] as it found it. *)
Definition keeps_env {A} (m : M A) : Prop :=
  forall w r w' t, m w = (r, w', t) -> environ w' = environ w.

(** * Properties *)


(** ** The monad *)

Lemma bind_Ok_inv {A C} (m : M A) (f : A -> M C) w b w' t :
  bind m f w = (Ok b, w', t) ->
  exists a w1 t1 t2,
    m w = (Ok a, w1, t1) /\ f a w1 = (Ok b, w', t2) /\ t = (t1 ++ t2)%list.
Proof.
  unfold bind. destruct (m w) as [[[a|e] w1] t1].
  - destruct (f a w1) as [[r w2] t2] eqn:Ef. intros [= Hr Hw Ht]. subst.
    by exists a, w1, t1, t2.
  - discriminate.
Qed.

Lemma bind_Ok {A C} (m : M A) (f : A -> M C) w a w1 t1 :
  m w = (Ok a, w1, t1) ->
  bind m f w = (let '(r, w2, t2) := f a w1 in (r, w2, (t1 ++ t2)%list)).
Proof. intros Hm. unfold bind. rewrite Hm. by destruct (f a w1) as [[r w2] t2]. Qed.

Lemma bind_Err {A C} (m : M A) (f : A -> M C) w e w1 t1 :
  m w = (Err e, w1, t1) -> bind m f w = (Err e, w1, t1).
Proof. intros Hm. unfold bind. by rewrite Hm. Qed.

(** Peel a successful run into the runs of its parts. *)
Ltac inv_run H :=
  repeat
    (cbv beta zeta in H;
     lazymatch type of H with
     | bind _ _ _ = (Ok _, _, _) =>
         let a := fresh "a" in let w1 := fresh "w" in
         let t1 := fresh "t" in let t2 := fresh "t" in
         let Hm := fresh "Hm" in let Ht := fresh "Ht" in
         apply bind_Ok_inv in H; destruct H as (a & w1 & t1 & t2 & Hm & H & Ht)
     | (if ?c then _ else _) _ = _ => destruct c eqn:?
     | ret _ _ = _ => unfold ret in H; injection H as <- <- <-
     | raise _ _ = _ => discriminate H
     end).

Section Facts.
Context `{B : Backend}.

(** ** Reads leave the world unchanged *)

Lemma getApikey_world k w r w' t :
  getApikey k w = (r, w', t) -> w' = w /\ t = [].
Proof.
  unfold getApikey. destruct (negb (String.eqb k "")).
  - by intros [= _ <- <-].
  - unfold bind, getenv. simpl.
    destruct (environ w !! "JEBIO_APIKEY"); [by intros [= _ <- <-]|].
    destruct (negb (String.eqb APIKEY "")); by intros [= _ <- <-].
Qed.

Lemma check_world h k w r w' t :
  check h k w = (r, w', t) ->
  w' = w /\ (forall e, e ∈ t -> exists key, e = EvGet (check_url key h)).
Proof.
  unfold check, bind.
  destruct (getApikey k w) as [[[key|err] w1] t1] eqn:Ek;
    apply getApikey_world in Ek as [-> ->].
  - unfold requests_get. destruct (http (check_url key h)) as [resp|].
    + unfold resp_json. destruct (json_loads (content resp));
        intros [= _ <- <-]; split; try done; intros e He;
        apply list_elem_of_singleton in He; by exists key.
    + intros [= _ <- <-]. split; [done|]. intros e He.
      apply list_elem_of_singleton in He. by exists key.
  - intros [= _ <- <-]. split; [done|]. intros e He. by apply elem_of_nil in He.
Qed.

Lemma already_present_world h0 w r w' t :
  already_present h0 w = (r, w', t) -> w' = w /\ t = [].
Proof.
  unfold already_present. destruct (truthy h0); [|by intros [= _ <- <-]].
  unfold bind, py_isfile.
  destruct h0; simpl; try (by intros [= _ <- <-]).
  unfold isfile. simpl. destruct (_ && _); simpl; [|by intros [= _ <- <-]].
  unfold read_file. destruct (fs w !! s); simpl; by intros [= _ <- <-].
Qed.

Lemma py_getitem_world r k w v w' t :
  py_getitem r k w = (v, w', t) -> w' = w /\ t = [].
Proof.
  unfold py_getitem. destruct r; try by intros [= _ <- <-].
  destruct (assoc k kvs); by intros [= _ <- <-].
Qed.

Lemma check_url_not_download key h key' h' :
  check_url key h <> download_url key' h'.
Proof. unfold check_url, download_url, BASE. simpl. discriminate. Qed.


Lemma requests_get_Ok url w resp w' t :
  requests_get url w = (Ok resp, w', t) ->
  http url = Some resp /\ w' = w /\ t = [EvGet url].
Proof.
  unfold requests_get. destruct (http url); [by intros [= -> <- <-]|discriminate].
Qed.

Lemma read_file_Ok p w c w' t :
  read_file p w = (Ok c, w', t) -> fs w !! p = Some c /\ w' = w /\ t = [].
Proof.
  unfold read_file. destruct (fs w !! p); [by intros [= -> <- <-]|discriminate].
Qed.

Lemma zip_open_Ok archive w ents w' t :
  zip_open archive w = (Ok ents, w', t) ->
  zip_read archive = Some ents /\ w' = w /\ t = [].
Proof.
  unfold zip_open. destruct (zip_read archive);
    [by intros [= -> <- <-]|discriminate].
Qed.

Lemma zip_getinfo_name ents n e :
  zip_getinfo ents n = Some e -> zname e = n.
Proof.
  unfold zip_getinfo.
  assert (forall acc, (forall e', acc = Some e' -> zname e' = n) ->
    forall e', fold_left (fun acc e => if String.eqb (zname e) n then Some e else acc)
                 ents acc = Some e' -> zname e' = n) as Hgen.
  { induction ents as [|e0 rest IH]; intros acc Hacc e'; [apply Hacc|].
    simpl. apply IH. intros e1. destruct (String.eqb (zname e0) n) eqn:He.
    - intros [= <-]. by apply String.eqb_eq.
    - apply Hacc. }
  apply Hgen. discriminate.
Qed.

(** A member extracted without error: a file member was read with the
    password and written at its sanitised name, a directory member made. *)
Lemma extract_member_Ok pwd ents n w w' t :
  extract_member pwd ents n w = (Ok tt, w', t) ->
  (ends_with_slash n = false ->
     exists e d, zip_getinfo ents n = Some e /\ zopen e pwd = ZOk d /\
       EvWrite (arcname n) ∈ t) /\
  (ends_with_slash n = true -> arcname n <> "" -> EvMkdir (arcname n) ∈ t).
Proof.
  intros H. unfold extract_member in H.
  destruct (zip_getinfo ents n) as [e|] eqn:Hg; [|discriminate].
  pose proof (zip_getinfo_name _ _ _ Hg) as Hn.
  remember (arcname n) as arc eqn:Harc.
  unfold zip_is_dir in H. rewrite Hn in H.
  destruct (String.eqb (parent_dir arc) "");
    destruct (String.eqb n "");
    destruct (ends_with_slash n) eqn:Hd;
    destruct (String.eqb arc "") eqn:Ha;
    destruct (zopen e pwd) as [d|ex|part ex] eqn:Hz;
    cbv [bind ret raise ensure_dir write_file] in H; try discriminate H;
    injection H as _ <-;
    (split; intros Hs; [try discriminate Hs|try discriminate Hs]);
    try (exists e, d; split; [done|split; [done|]]);
    try (intros Hne; apply String.eqb_neq in Hne; congruence);
    try intros _; set_solver.
Qed.

Lemma extract_names_Ok pwd ents names w w' t :
  extract_names pwd ents names w = (Ok tt, w', t) ->
  forall n, n ∈ names ->
    exists w1 w2 t1, extract_member pwd ents n w1 = (Ok tt, w2, t1) /\ t1 ⊆ t.
Proof.
  revert w t. induction names as [|n0 rest IH]; intros w t H n Hin;
    [by apply elem_of_nil in Hin|].
  simpl in H. apply bind_Ok_inv in H as ([] & w1 & t1 & t2 & H1 & H2 & ->).
  apply elem_of_cons in Hin as [->|Hin].
  - exists w, w1, t1. split; [done|]. set_solver.
  - destruct (IH _ _ H2 n Hin) as (w3 & w4 & t3 & Hm & Hsub).
    exists w3, w4, t3. split; [done|]. set_solver.
Qed.

Lemma unlink_Ok p w w' t :
  unlink p w = (Ok tt, w', t) ->
  w' = mkWorld (delete p (fs w)) (environ w) /\ t = [EvUnlink p].
Proof.
  unfold unlink. destruct (fs w !! p); [by intros [= <- <-]|discriminate].
Qed.

Lemma py_add_zip_Ok h0 w s w' t :
  py_add_zip h0 w = (Ok s, w', t) ->
  exists s0, h0 = JStr s0 /\ s = (s0 ++ ".zip")%string /\ w' = w /\ t = [].
Proof.
  unfold py_add_zip. destruct h0 as [| | |s0| |]; try discriminate.
  intros [= <- <- <-]. by exists s0.
Qed.

(** A successful [download] with [extract] that issued a download request
    went through the archive branch, whose effects are these. *)
Lemma download_extract_inv h k w v w' t :
  download h k true w = (Ok v, w', t) ->
  (exists key hh, EvGet (download_url key hh) ∈ t) ->
  v <> JNull ->
  exists t0 key h0 resp ents n rest w2 tx,
    http (download_url key h0) = Some resp /\
    zip_read (content resp) = Some ents /\
    map zname ents = n :: rest /\
    v = JStr n /\
    extractall "infected" ents
      (mkWorld (<[(h0 ++ ".zip")%string := content resp]> (fs w)) (environ w))
      = (Ok tt, w2, tx) /\
    t = (t0 ++ [EvGet (download_url key h0); EvWrite (h0 ++ ".zip")] ++ tx
           ++ [EvUnlink (h0 ++ ".zip")])%list /\
    fs w' = delete (h0 ++ ".zip")%string (fs w2).
Proof.
  intros H Hdl Hv. unfold download in H. inv_run H.
  all: try (exfalso; by apply Hv).
  - (* the file was already present: only the check request was issued *)
    exfalso. destruct Hdl as (key & hh & Hin).
    apply check_world in Hm as [-> Hc].
    apply py_getitem_world in Hm0 as [-> ->].
    apply already_present_world in Hm1 as [-> ->].
    subst. rewrite !app_nil_r in Hin.
    destruct (Hc _ Hin) as [key' Heq]. injection Heq as Heq.
    by apply (check_url_not_download key' h key hh).
  - apply check_world in Hm as [-> _].
    apply py_getitem_world in Hm0 as [-> ->].
    apply already_present_world in Hm1 as [-> ->].
    apply getApikey_world in Hm2 as [-> ->].
    apply requests_get_Ok in Hm3 as (Hhttp & -> & ->).
    apply py_add_zip_Ok in Hm4 as (s0 & Hs0 & -> & -> & ->).
    rewrite Hs0 in Hhttp. simpl in Hhttp.
    unfold write_file in Hm5. injection Hm5 as <- <- <-.
    apply read_file_Ok in Hm6 as (Hc & -> & ->).
    simpl in Hc. rewrite lookup_insert_eq in Hc. injection Hc as <-.
    apply zip_open_Ok in Hm7 as (Hz & -> & ->).
    unfold first_name in Hm9. destruct a7 as [|e rest]; [discriminate|].
    injection Hm9 as <- <- <-.
    destruct a10. apply unlink_Ok in Hm10 as [-> ->].
    exists t0, a2, s0, a3, (e :: rest), (zname e), (map zname rest).
    destruct a8. rewrite Hs0 in Ht3. simpl in Ht3.
    do 2 eexists.
    split; [exact Hhttp|]. split; [exact Hz|]. split; [done|].
    split; [done|]. split; [exact Hm8|].
    subst. split; [|done]. simpl. by rewrite ?app_nil_r, <- ?app_assoc.
Qed.

(** Every name of the listing, after a successful [extractall]. *)
Lemma extractall_members pwd ents w w' t :
  extractall pwd ents w = (Ok tt, w', t) ->
  forall m, m ∈ map zname ents ->
    (ends_with_slash m = false ->
       exists e d, zip_getinfo ents m = Some e /\ zopen e pwd = ZOk d /\
         EvWrite (arcname m) ∈ t) /\
    (ends_with_slash m = true -> arcname m <> "" -> EvMkdir (arcname m) ∈ t).
Proof.
  intros H m Hm.
  destruct (extract_names_Ok _ _ _ _ _ _ H m Hm) as (w1 & w2 & t1 & Hx & Hsub).
  apply extract_member_Ok in Hx as [Hf Hd]. split.
  - intros Hs. destruct (Hf Hs) as (e & d & Hg & Hz & Hin).
    exists e, d. split; [done|]. split; [done|]. by apply Hsub.
  - intros Hs Hne. apply Hsub. by apply Hd.
Qed.

Lemma check_Ok h k w r w1 t1 :
  check h k w = (Ok r, w1, t1) ->
  exists key, getApikey k w = (Ok key, w, []) /\ w1 = w /\
    t1 = [EvGet (check_url key h)].
Proof.
  intros H. unfold check in H. inv_run H.
  pose proof Hm as [-> ->]%getApikey_world.
  apply requests_get_Ok in Hm0 as (_ & -> & ->).
  unfold resp_json in H. destruct (json_loads (content a0)); [|discriminate].
  injection H as _ <- <-. exists a. by subst.
Qed.

Lemma no_download_in_check_trace key h key' hh :
  EvGet (download_url key' hh) ∉ [EvGet (check_url key h)].
Proof.
  rewrite list_elem_of_singleton. intros Heq.
  apply (f_equal (fun e => match e with EvGet u => u | _ => "" end)) in Heq.
  by apply (check_url_not_download key h key' hh).
Qed.

(** ** The command-line entry list *)

Lemma process_opts_run opts v x acc w r w' t :
  process_opts opts v x acc w = (Ok r, w', t) ->
  w' = w /\ t = [] /\
  forall e, e ∈ r.2 <->
    e ∈ acc \/
    exists a text, ("-f", a) ∈ opts /\ fs w !! a = Some text /\
                   e ∈ list_file_entries text.
Proof.
  revert v x acc t. induction opts as [|[o a] rest IH]; intros v x acc t H.
  - injection H as <- <- <-. do 2 (split; [done|]). intros e. simpl.
    split; [by left|]. intros [He|(a & text & Ha & _)]; [done|].
    by apply elem_of_nil in Ha.
  - simpl in H.
    assert (Hrest : forall e,
      (exists a' text, ("-f", a') ∈ rest /\ fs w !! a' = Some text /\
                       e ∈ list_file_entries text) ->
      exists a' text, ("-f", a') ∈ (o, a) :: rest /\ fs w !! a' = Some text /\
                      e ∈ list_file_entries text).
    { intros e (a' & text & Ha & Ht & He). exists a', text.
      split; [by apply elem_of_cons; right|done]. }
    destruct (String.eqb o "-v") eqn:Ev; [|destruct (String.eqb o "-x") eqn:Ex;
      [|destruct (String.eqb o "-f") eqn:Ef]].
    + apply String.eqb_eq in Ev as ->.
      destruct (IH _ _ _ _ H) as (-> & -> & Hr). do 2 (split; [done|]).
      intros e. rewrite Hr. split; [intros [?|?]; [by left|by right; apply Hrest]|].
      intros [?|(a' & text & Ha & Ht & He)]; [by left|right].
      apply elem_of_cons in Ha as [[=]|Ha]. by exists a', text.
    + apply String.eqb_eq in Ex as ->.
      destruct (IH _ _ _ _ H) as (-> & -> & Hr). do 2 (split; [done|]).
      intros e. rewrite Hr. split; [intros [?|?]; [by left|by right; apply Hrest]|].
      intros [?|(a' & text & Ha & Ht & He)]; [by left|right].
      apply elem_of_cons in Ha as [[=]|Ha]. by exists a', text.
    + apply String.eqb_eq in Ef as ->. inv_run H.
      apply read_file_Ok in Hm as (Hread & -> & ->).
      destruct (IH _ _ _ _ H) as (-> & -> & Hr). split; [done|].
      split; [by subst|]. intros e. rewrite Hr, elem_of_app. split.
      * intros [[?|?]|?]; [by left|right|by right; apply Hrest].
        exists a, a0. split; [by apply elem_of_cons; left|done].
      * intros [?|(a' & text & Ha & Htx & He)]; [by left; left|].
        apply elem_of_cons in Ha as [[= <-]|Ha].
        -- left; right. rewrite Hread in Htx. by injection Htx as <-.
        -- right. by exists a', text.
    + discriminate H.
Qed.

Lemma in_split_args e args :
  e ∈ List.concat (map split_comma args) <-> exists arg, arg ∈ args /\ e ∈ split_comma arg.
Proof.
  rewrite list_elem_of_In, in_concat. split.
  - intros (l & Hl & He). apply in_map_iff in Hl as (arg & <- & Ha).
    exists arg. by rewrite !list_elem_of_In.
  - intros (arg & Ha & He). exists (split_comma arg).
    rewrite list_elem_of_In in Ha, He. split; [|done]. by apply in_map.
Qed.

End Facts.

(** * The claims *)

Section Claims.
Context `{B : Backend}.

(** ** C1 *)

(** C1 (as amended).  When the check result is found ([code == 0]) but has
    no [sha256hash], [download] does not fall back to the hash it was
    given: its one [file/download] request carries [h=None] (the absent
    value formatted by [%s]), and no file is saved: the call reports
    not-found or raises. *)
Theorem download_missing_hash_requests_None h k ex w kvs c w1 t1 :
  h <> "" ->
  check h k w = (Ok (JObj kvs), w1, t1) ->
  assoc "code" kvs = Some c -> py_ne_zero c = false ->
  assoc "sha256hash" kvs = None ->
  exists key,
    getApikey k w = (Ok key, w, []) /\
    let '(r, w', t) := download h k ex w in
    t = (t1 ++ [EvGet (download_url key "None")])%list /\ w' = w /\
    (r = Ok JNull \/ exists e, r = Err e).
Proof.
  intros Hh Hc Hcode Hne Hsha.
  pose proof Hc as (key & Hk & -> & ->)%check_Ok.
  exists key. split; [done|].
  unfold download. rewrite (proj2 (String.eqb_neq h "") Hh).
  rewrite (bind_Ok _ _ _ _ _ _ Hc).
  assert (Htr : truthy (JObj kvs) = true).
  { simpl. destruct kvs; [discriminate|done]. }
  cbv beta zeta. rewrite Htr. cbv beta iota zeta delta [negb].
  assert (Hg : py_getitem (JObj kvs) "code" w = (Ok c, w, [])).
  { unfold py_getitem. by rewrite Hcode. }
  rewrite (bind_Ok _ _ _ _ _ _ Hg). cbv beta. rewrite Hne.
  assert (Hd : dict_get (JObj kvs) "sha256hash" = JNull).
  { unfold dict_get. by rewrite Hsha. }
  rewrite Hd.
  rewrite (bind_Ok _ _ _ false w [] (eq_refl : already_present JNull w = (Ok false, w, []))).
  cbv beta iota. rewrite (bind_Ok _ _ _ _ _ _ Hk). cbv beta.
  unfold bind at 1, requests_get. simpl py_str.
  destruct (http (download_url key "None")) as [resp|].
  - destruct (resp_ok resp), (String.eqb (content resp) "");
      cbn; (split; [done|]); (split; [done|]); first [by left | right; by eexists].
  - cbn. split; [done|]. split; [done|]. right. by eexists.
Qed.

(** ** C2 *)

(** C2.  When the check result is absent (falsy) or its [code] differs
    from [0], [download] returns [None], raises nothing, and issues no
    request beyond the check: its trace and world are those of [check]. *)
Theorem download_not_found_no_request h k ex w r w1 t1 :
  h <> "" ->
  check h k w = (Ok r, w1, t1) ->
  (truthy r = false \/
   exists kvs c, r = JObj kvs /\ assoc "code" kvs = Some c /\ py_ne_zero c = true) ->
  download h k ex w = (Ok JNull, w1, t1).
Proof.
  intros Hh Hc Hr. unfold download. rewrite (proj2 (String.eqb_neq h "") Hh).
  rewrite (bind_Ok _ _ _ _ _ _ Hc). cbv beta zeta.
  destruct Hr as [Hf | (kvs & c & -> & Hcode & Hne)].
  - rewrite Hf. cbn. by rewrite app_nil_r.
  - assert (truthy (JObj kvs) = true) as ->.
    { simpl. destruct kvs; [discriminate|done]. }
    cbv beta iota zeta delta [negb].
    assert (Hg : py_getitem (JObj kvs) "code" w1 = (Ok c, w1, [])).
    { unfold py_getitem. by rewrite Hcode. }
    rewrite (bind_Ok _ _ _ _ _ _ Hg). cbv beta. rewrite Hne. cbn.
    by rewrite app_nil_r.
Qed.

(** ** C3 *)

(** C3.  When the check result names a canonical hash [h0] and a local
    file named [h0] holds content whose sha256 equals [h0] up to case,
    [download] returns [h0], leaves the working directory unchanged and
    issues no [file/download] request. *)
Theorem download_cached_no_request h k ex w kvs c s data w1 t1 :
  h <> "" ->
  check h k w = (Ok (JObj kvs), w1, t1) ->
  assoc "code" kvs = Some c -> py_ne_zero c = false ->
  assoc "sha256hash" kvs = Some (JStr s) -> s <> "" ->
  fs w !! s = Some data ->
  lower (sha256_hexdigest data) = lower s ->
  download h k ex w = (Ok (JStr s), w, t1) /\
  (forall key hh, EvGet (download_url key hh) ∉ t1).
Proof.
  intros Hh Hc Hcode Hne Hsha Hs Hdata Heq.
  pose proof Hc as (key & _ & -> & ->)%check_Ok.
  split; [|intros; apply no_download_in_check_trace].
  unfold download. rewrite (proj2 (String.eqb_neq h "") Hh).
  rewrite (bind_Ok _ _ _ _ _ _ Hc).
  assert (truthy (JObj kvs) = true) as Htr.
  { simpl. destruct kvs; [discriminate|done]. }
  cbv beta zeta. rewrite Htr. cbv beta iota zeta delta [negb].
  assert (Hg : py_getitem (JObj kvs) "code" w = (Ok c, w, [])).
  { unfold py_getitem. by rewrite Hcode. }
  rewrite (bind_Ok _ _ _ _ _ _ Hg). cbv beta. rewrite Hne.
  assert (Hd : dict_get (JObj kvs) "sha256hash" = JStr s).
  { unfold dict_get. by rewrite Hsha. }
  rewrite Hd.
  assert (Hp : already_present (JStr s) w = (Ok true, w, [])).
  { unfold already_present, truthy. rewrite (proj2 (String.eqb_neq s "") Hs).
    cbv beta iota delta [negb].
    assert (Hf : py_isfile (JStr s) w = (Ok true, w, [])).
    { unfold py_isfile, isfile. rewrite (proj2 (String.eqb_neq s "") Hs), Hdata.
      done. }
    rewrite (bind_Ok _ _ _ _ _ _ Hf). cbv beta iota.
    assert (Hr : read_file s w = (Ok data, w, [])).
    { unfold read_file. by rewrite Hdata. }
    rewrite (bind_Ok _ _ _ _ _ _ Hr). rewrite Heq, String.eqb_refl. done. }
  rewrite (bind_Ok _ _ _ _ _ _ Hp). by cbn.
Qed.

(** ** C4 *)


(** ** C5 *)

(** C5.  [getApikey] takes a non-empty explicit key, else the
    [JEBIO_APIKEY] environment variable when it is set, else a non-empty
    global [APIKEY]; with none of them it raises (the missing-key [raise])
    instead of returning a key.  It never changes the world or issues a
    request. *)
Theorem getApikey_precedence k w :
  (k <> "" -> getApikey k w = (Ok k, w, [])) /\
  (k = "" -> forall v, environ w !! "JEBIO_APIKEY" = Some v ->
     getApikey k w = (Ok v, w, [])) /\
  (k = "" -> environ w !! "JEBIO_APIKEY" = None -> APIKEY <> "" ->
     getApikey k w = (Ok APIKEY, w, [])) /\
  (k = "" -> environ w !! "JEBIO_APIKEY" = None -> APIKEY = "" ->
     getApikey k w =
       (Err (RaisedStr "Your need a JEB.IO API key to execute this command."), w, [])).
Proof.
  unfold getApikey. split; [|split; [|split]].
  - intros Hk. by rewrite (proj2 (String.eqb_neq k "") Hk).
  - intros -> v Hv. cbn. unfold bind, getenv. by rewrite Hv.
  - intros -> Hv Ha. cbn. unfold bind, getenv. rewrite Hv.
    by rewrite (proj2 (String.eqb_neq APIKEY "") Ha).
  - intros -> Hv Ha. cbn. unfold bind, getenv. rewrite Hv, Ha. done.
Qed.

(** ** C6 *)

(** C6 (as amended).  [check] issues exactly one GET, to
    [file/check?apikey=<key>&h=<h>], and returns the JSON-decoded body
    whatever the HTTP status: a connection failure raises, a body that is
    not JSON raises, and a non-2xx response with a JSON body is returned as
    a value; there is no retry. *)
Theorem check_single_request h k w key :
  getApikey k w = (Ok key, w, []) ->
  check h k w =
    (match http (check_url key h) with
     | None => Err ConnectionError
     | Some resp =>
         match json_loads (content resp) with
         | Some v => Ok v
         | None => Err JSONDecodeError
         end
     end, w, [EvGet (check_url key h)]).
Proof.
  intros Hk. unfold check. rewrite (bind_Ok _ _ _ _ _ _ Hk). cbv beta.
  unfold bind, requests_get. destruct (http (check_url key h)) as [resp|]; [|done].
  unfold resp_json. by destruct (json_loads (content resp)).
Qed.

(** ** C8 *)

(** C8.  [download] with an empty hash raises at once: no credential is
    resolved, no request issued, the world is unchanged. *)
Theorem download_empty_hash_raises k ex w :
  download "" k ex w = (Err (RaisedStr "A hash must be provided"), w, []).
Proof. reflexivity. Qed.

(** ** C9 *)

(** C9.  A non-empty check result without a [code] field makes [download]
    raise [KeyError('code')] rather than report not-found. *)
Theorem download_missing_code_raises h k ex w kvs w1 t1 :
  h <> "" ->
  check h k w = (Ok (JObj kvs), w1, t1) ->
  kvs <> [] ->
  assoc "code" kvs = None ->
  download h k ex w = (Err (KeyError "code"), w1, t1).
Proof.
  intros Hh Hc Hne Hcode. unfold download.
  rewrite (proj2 (String.eqb_neq h "") Hh), (bind_Ok _ _ _ _ _ _ Hc).
  assert (truthy (JObj kvs) = true) as ->.
  { simpl. destruct kvs; [done|done]. }
  cbv beta iota zeta delta [negb].
  assert (Hg : py_getitem (JObj kvs) "code" w1 = (Err (KeyError "code"), w1, [])).
  { unfold py_getitem. by rewrite Hcode. }
  rewrite (bind_Err _ _ _ _ _ _ Hg). cbn. by rewrite app_nil_r.
Qed.

(** ** C10 *)

(** C10.  A successful [download] with [extract] runs [extractall] on
    the archive it saved as [<h0>.zip]: every member of the listing is
    extracted into the working directory at its sanitised name [arcname m]
    (file members read with the password [infected] and written, directory
    members created), although only the first name is returned. *)
Theorem download_extract_writes_all_members h k w v w' t :
  download h k true w = (Ok v, w', t) ->
  (exists key hh, EvGet (download_url key hh) ∈ t) ->
  v <> JNull ->
  exists key h0 resp ents n rest,
    http (download_url key h0) = Some resp /\
    EvWrite (h0 ++ ".zip") ∈ t /\
    zip_read (content resp) = Some ents /\
    map zname ents = n :: rest /\
    v = JStr n /\
    (forall m, m ∈ map zname ents ->
       (ends_with_slash m = false ->
          exists e d, zip_getinfo ents m = Some e /\ zopen e "infected" = ZOk d /\
            EvWrite (arcname m) ∈ t) /\
       (ends_with_slash m = true -> arcname m <> "" -> EvMkdir (arcname m) ∈ t)).
Proof.
  intros H Hdl Hv.
  destruct (download_extract_inv h k w v w' t H Hdl Hv)
    as (t0 & key & h0 & resp & ents & n & rest & w2 & tx &
        Hhttp & Hz & Hnames & -> & Hx & -> & _).
  exists key, h0, resp, ents, n, rest.
  split; [done|]. split; [set_solver|].
  split; [done|]. split; [done|]. split; [done|].
  intros m Hm. destruct (extractall_members _ _ _ _ _ Hx m Hm) as [Hf Hd].
  split.
  - intros Hs. destruct (Hf Hs) as (e & d & Hg & Hze & Hin).
    exists e, d. split; [done|]. split; [done|]. set_solver.
  - intros Hs Hne. specialize (Hd Hs Hne). set_solver.
Qed.

(** ** C7 *)

(** C7.  The entries the command line processes are exactly the stripped
    lines of the [-f] files that are non-blank and do not start with [#],
    together with the positional arguments split on commas, without
    duplicates.  With a list file holding a [#] comment, blank lines and
    [abc123], and no positional argument, [check] mode queries [abc123]
    only. *)
Theorem cli_entries_from_files_and_args :
  (forall opts args w v x hlist w' t,
     collect_entries opts args w = (Ok (v, x, hlist), w', t) ->
     NoDup hlist /\
     forall e, e ∈ hlist <->
       (exists a text, ("-f", a) ∈ opts /\ fs w !! a = Some text /\
                       e ∈ list_file_entries text) \/
       (exists arg, arg ∈ args /\ e ∈ split_comma arg)) /\
  (forall text e, e ∈ list_file_entries text <->
     exists line, line ∈ readlines text /\ e = strip line /\ e <> "" /\
                  String.prefix "#" e = false) /\
  @main demo_backend "check" [("-f", "list.txt")] [] demo_world_list =
    (Ok tt, demo_world_list, [EvGet (check_url "K" "abc123")]).
Proof.
  split; [|split].
  - intros opts args w v x hlist w' t H. unfold collect_entries in H. inv_run H.
    destruct a as [[v0 x0] hl0]. cbv beta iota zeta in H.
    injection H as <- <- <- <- <-.
    destruct (process_opts_run _ _ _ _ _ _ _ _ Hm) as (_ & _ & Hr).
    simpl in Hr. unfold dedup. split; [apply NoDup_elements|]. intros e.
    rewrite elem_of_elements, elem_of_list_to_set, elem_of_app.
    rewrite Hr, in_split_args. split.
    + intros [[He|?]|?]; [by apply elem_of_nil in He|by left|by right].
    + intros [?|?]; [by left; right|by right].
  - intros text e. unfold list_file_entries.
    rewrite list_elem_of_filter, list_elem_of_fmap. split.
    + intros [Hp (line & -> & Hl)]. exists line. do 2 (split; [done|]).
      destruct (String.eqb (strip line) "") eqn:E1; [done|].
      destruct (String.prefix "#" (strip line)); [done|].
      split; [by apply String.eqb_neq|done].
    + intros (line & Hl & -> & Hne & Hpre). split; [|by exists line].
      rewrite (proj2 (String.eqb_neq _ _) Hne), Hpre. done.
  - vm_compute. reflexivity.
Qed.

End Claims.

(** * Witnesses and counterexamples on the concrete backend *)

(** The check result for [plain] is found but names no canonical hash. *)
Lemma download_missing_hash_requests_None_witness :
  "plain" <> "" /\
  @check demo_backend "plain" "" demo_world =
    (Ok (JObj [("code", JNum 0)]), demo_world, [EvGet (check_url "K" "plain")]) /\
  exists key,
    @getApikey demo_backend "" demo_world = (Ok key, demo_world, []) /\
    let '(r, w', t) := @download demo_backend "plain" "" false demo_world in
    t = ([EvGet (check_url "K" "plain")] ++ [EvGet (download_url key "None")])%list /\
    w' = demo_world /\ (r = Ok JNull \/ exists e, r = Err e).
Proof.
  split; [discriminate|]. split; [vm_compute; reflexivity|].
  apply (download_missing_hash_requests_None (B:=demo_backend) "plain" "" false
           demo_world [("code", JNum 0)] (JNum 0) demo_world
           [EvGet (check_url "K" "plain")]);
    [discriminate | vm_compute; reflexivity | reflexivity | reflexivity | reflexivity].
Defined.

(** C1 fails: for [plain] the service would serve [download?h=plain], but
    [download] requests [h=None] and then raises instead of saving. *)
Lemma download_no_fallback_counterexample :
  @check demo_backend "plain" "" demo_world =
    (Ok (JObj [("code", JNum 0)]), demo_world, [EvGet (check_url "K" "plain")]) /\
  @http demo_backend (download_url "K" "plain") = Some (mkResp 200 "ZIPDATA") /\
  @download demo_backend "plain" "" false demo_world =
    (Err (TypeError "unsupported operand type(s) for +"), demo_world,
     [EvGet (check_url "K" "plain"); EvGet (download_url "K" "None")]) /\
  EvGet (download_url "K" "plain")
    ∉ [EvGet (check_url "K" "plain"); EvGet (download_url "K" "None")].
Proof.
  split; [vm_compute; reflexivity|]. split; [vm_compute; reflexivity|].
  split; [vm_compute; reflexivity|].
  apply (bool_decide_unpack _). vm_compute. exact I.
Qed.

Lemma download_not_found_no_request_witness :
  "gone" <> "" /\
  @check demo_backend "gone" "" demo_world =
    (Ok (JObj [("code", JNum 1)]), demo_world, [EvGet (check_url "K" "gone")]) /\
  @download demo_backend "gone" "" true demo_world =
    (Ok JNull, demo_world, [EvGet (check_url "K" "gone")]).
Proof.
  split; [discriminate|]. split; [vm_compute; reflexivity|].
  apply (download_not_found_no_request (B:=demo_backend) "gone" "" true demo_world
           (JObj [("code", JNum 1)]) demo_world [EvGet (check_url "K" "gone")]);
    [discriminate | vm_compute; reflexivity |].
  right. exists [("code", JNum 1)], (JNum 1). done.
Defined.

Lemma download_cached_no_request_witness :
  @check demo_backend "abc123" "" demo_world_cached =
    (Ok (JObj [("code", JNum 0); ("sha256hash", JStr "abcd")]), demo_world_cached,
     [EvGet (check_url "K" "abc123")]) /\
  @download demo_backend "abc123" "" true demo_world_cached =
    (Ok (JStr "abcd"), demo_world_cached, [EvGet (check_url "K" "abc123")]) /\
  (forall key hh, EvGet (download_url key hh) ∉ [EvGet (check_url "K" "abc123")]).
Proof.
  split; [vm_compute; reflexivity|].
  apply (download_cached_no_request (B:=demo_backend) "abc123" "" true
           demo_world_cached [("code", JNum 0); ("sha256hash", JStr "abcd")]
           (JNum 0) "abcd" "sample" demo_world_cached [EvGet (check_url "K" "abc123")]);
    [discriminate | vm_compute; reflexivity | reflexivity | reflexivity
    | reflexivity | discriminate | vm_compute; reflexivity | vm_compute; reflexivity].
Defined.



Lemma download_extract_writes_all_members_witness :
  @download demo_backend "abc123" "" true demo_world =
    (Ok (JStr "sample.apk"), demo_after_extract, demo_extract_trace) /\
  exists key h0 resp ents n rest,
    @http demo_backend (download_url key h0) = Some resp /\
    EvWrite (h0 ++ ".zip") ∈ demo_extract_trace /\
    @zip_read demo_backend (content resp) = Some ents /\
    map zname ents = n :: rest /\
    JStr "sample.apk" = JStr n /\
    (forall m, m ∈ map zname ents ->
       (ends_with_slash m = false ->
          exists e d, zip_getinfo ents m = Some e /\ zopen e "infected" = ZOk d /\
            EvWrite (arcname m) ∈ demo_extract_trace) /\
       (ends_with_slash m = true -> arcname m <> "" ->
          EvMkdir (arcname m) ∈ demo_extract_trace)).
Proof.
  split; [vm_compute; reflexivity|].
  apply (download_extract_writes_all_members (B:=demo_backend) "abc123" "" demo_world
           (JStr "sample.apk") demo_after_extract demo_extract_trace);
    [vm_compute; reflexivity | | discriminate].
  exists "K", "abcd". unfold demo_extract_trace. apply elem_of_cons. right.
  apply elem_of_cons. by left.
Defined.

Lemma getApikey_precedence_witness :
  @getApikey demo_backend "mine" demo_world = (Ok "mine", demo_world, []) /\
  @getApikey demo_backend "" demo_world = (Ok "K", demo_world, []) /\
  @getApikey demo_backend "" (mkWorld ∅ ∅) =
    (Err (RaisedStr "Your need a JEB.IO API key to execute this command."),
     mkWorld ∅ ∅, []).
Proof.
  split; [|split].
  - apply (proj1 (getApikey_precedence (B:=demo_backend) "mine" demo_world)).
    discriminate.
  - apply (proj1 (proj2 (getApikey_precedence (B:=demo_backend) "" demo_world)));
      [reflexivity | vm_compute; reflexivity].
  - apply (proj2 (proj2 (proj2 (getApikey_precedence (B:=demo_backend) "" (mkWorld ∅ ∅)))));
      reflexivity.
Defined.

Lemma check_single_request_witness :
  @getApikey demo_backend "" demo_world = (Ok "K", demo_world, []) /\
  @check demo_backend "gone" "" demo_world =
    (Ok (JObj [("code", JNum 1)]), demo_world, [EvGet (check_url "K" "gone")]).
Proof.
  split; [vm_compute; reflexivity|].
  rewrite (check_single_request (B:=demo_backend) "gone" "" demo_world "K");
    [|vm_compute; reflexivity].
  vm_compute. reflexivity.
Defined.

(** C6 fails: a 404 answer whose body is JSON is returned by [check] as a
    value, not raised. *)
Lemma check_non2xx_counterexample :
  @http demo_backend (check_url "K" "nothere") = Some (mkResp 404 "{}") /\
  resp_ok (mkResp 404 "{}") = false /\
  @check demo_backend "nothere" "" demo_world =
    (Ok (JObj []), demo_world, [EvGet (check_url "K" "nothere")]).
Proof.
  split; [vm_compute; reflexivity|]. split; [reflexivity|].
  vm_compute. reflexivity.
Qed.

Lemma cli_entries_from_files_and_args_witness :
  @collect_entries [("-f", "list.txt")] ["x,y"] demo_world_list =
    (Ok (false, false, dedup ["abc123"; "x"; "y"]), demo_world_list, []) /\
  NoDup (dedup ["abc123"; "x"; "y"]) /\
  (forall e, e ∈ dedup ["abc123"; "x"; "y"] <->
     (exists a text, ("-f", a) ∈ [("-f", "list.txt")] /\ fs demo_world_list !! a = Some text /\
                     e ∈ list_file_entries text) \/
     (exists arg, arg ∈ ["x,y"] /\ e ∈ split_comma arg)).
Proof.
  split; [vm_compute; reflexivity|].
  apply (proj1 cli_entries_from_files_and_args
           [("-f", "list.txt")] ["x,y"] demo_world_list false false
           (dedup ["abc123"; "x"; "y"]) demo_world_list []).
  vm_compute. reflexivity.
Defined.

Lemma download_missing_code_raises_witness :
  "weird" <> "" /\
  @check demo_backend "weird" "" demo_world =
    (Ok (JObj [("msg", JStr "unknown")]), demo_world, [EvGet (check_url "K" "weird")]) /\
  @download demo_backend "weird" "" false demo_world =
    (Err (KeyError "code"), demo_world, [EvGet (check_url "K" "weird")]).
Proof.
  split; [discriminate|]. split; [vm_compute; reflexivity|].
  apply (download_missing_code_raises (B:=demo_backend) "weird" "" false demo_world
           [("msg", JStr "unknown")] demo_world [EvGet (check_url "K" "weird")]);
    [discriminate | vm_compute; reflexivity | discriminate | reflexivity].
Defined.

(** * Further properties of the script *)

(** ** getopt *)

Lemma prefix_dash_dash a :
  String.prefix "--" a = true -> String.prefix "-" a = true.
Proof.
  intros H. destruct a as [|c r]; [discriminate|].
  cbn [String.prefix] in *. destruct (ascii_dec "-" c); [|discriminate].
  destruct r; reflexivity.
Qed.

(** X1.  The option letters [v], [x] and [f] given as separate tokens
    ([-f] followed by its argument) are read back as the same options, and
    the rest of the command line is left as the positional arguments when
    it is empty, starts with a token that is not an option, or follows a
    [--]. *)
Theorem getopt_reads_back_options opts :
  Forall (fun o => o = ("-v", "") \/ o = ("-x", "") \/ o.1 = "-f") opts ->
  (forall args,
     (args = [] \/ exists a rest, args = a :: rest /\
                    (String.prefix "-" a = false \/ a = "-")) ->
     getopt_vxf (List.concat (map (fun o => if String.eqb o.1 "-f" then [o.1; o.2]
                                           else [o.1]) opts) ++ args)
     = Some (opts, args)) /\
  (forall args,
     getopt_vxf (List.concat (map (fun o => if String.eqb o.1 "-f" then [o.1; o.2]
                                           else [o.1]) opts) ++ "--" :: args)
     = Some (opts, args)).
Proof.
  induction 1 as [|o opts Ho _ [IH1 IH2]].
  - split.
    + intros args [->|(a & rest & -> & Ha)]; [done|]. simpl.
      destruct Ha as [Ha| ->]; [|done].
      destruct (String.eqb a "--") eqn:E1.
      { apply String.eqb_eq in E1 as ->. discriminate. }
      destruct (String.prefix "--" a) eqn:E2.
      { apply prefix_dash_dash in E2. congruence. }
      by rewrite Ha.
    + intros args. done.
  - destruct Ho as [->|[->|Hf]].
    + split; [intros args Hargs | intros args]; simpl;
        [by rewrite IH1 | by rewrite IH2].
    + split; [intros args Hargs | intros args]; simpl;
        [by rewrite IH1 | by rewrite IH2].
    + destruct o as [f a]. simpl in Hf. subst f.
      split; [intros args Hargs | intros args]; simpl;
        [by rewrite IH1 | by rewrite IH2].
Qed.

Lemma getopt_reads_back_options_witness :
  Forall (fun o => o = ("-v", "") \/ o = ("-x", "") \/ o.1 = "-f")
    [("-x", ""); ("-f", "-list.txt")] /\
  getopt_vxf (["-x"; "-f"; "-list.txt"] ++ ["abc"; "-v"]) =
    Some ([("-x", ""); ("-f", "-list.txt")], ["abc"; "-v"]).
Proof.
  assert (Hf : Forall (fun o => o = ("-v", "") \/ o = ("-x", "") \/ o.1 = "-f")
                 [("-x", ""); ("-f", "-list.txt")]).
  { constructor; [right; left; done|].
    constructor; [right; right; done|]. constructor. }
  split; [exact Hf|].
  apply (proj1 (getopt_reads_back_options _ Hf) ["abc"; "-v"]).
  right. exists "abc", ["-v"]. split; [done|]. left. reflexivity.
Defined.

(** ** The command-line monad *)

Lemma bindC_Ok {A C} (m : MC A) (f : A -> MC C) w a w1 t1 :
  m w = (Ok a, w1, t1) ->
  bindC m f w = (let '(r, w2, t2) := f a w1 in (r, w2, (t1 ++ t2)%list)).
Proof. intros Hm. unfold bindC. rewrite Hm. by destruct (f a w1) as [[r w2] t2]. Qed.

Lemma bindC_Err {A C} (m : MC A) (f : A -> MC C) w e w1 t1 :
  m w = (Err e, w1, t1) -> bindC m f w = (Err e, w1, t1).
Proof. intros Hm. unfold bindC. by rewrite Hm. Qed.

Lemma liftM_run {A} (m : M A) w r w1 t1 :
  m w = (r, w1, t1) -> liftM m w = (r, w1, map Ev t1).
Proof. intros Hm. unfold liftM. by rewrite Hm. Qed.

Section Extras.
Context `{B : Backend} `{P : PostBackend}.

(** ** upload *)

(** The run of [upload], case by case on the key and the file. *)
Lemma upload_run f k w :
  upload f k w =
  match getApikey k w with
  | (Err e, _, _) => (Err e, w, [])
  | (Ok key, _, _) =>
      match fs w !! f with
      | None => (Err (FileNotFoundError f), w, [])
      | Some data =>
          (match http_post (upload_url key) "ufile" data with
           | None => Err ConnectionError
           | Some r => match json_loads (content r) with
                       | Some v => Ok v
                       | None => Err JSONDecodeError
                       end
           end, w, [EvPost (upload_url key) "ufile" data])
      end
  end.
Proof.
  unfold upload, bindC, liftM.
  destruct (getApikey k w) as [[[key|e] w1] t1] eqn:E;
    apply getApikey_world in E as [-> ->]; [|done].
  unfold read_file. destruct (fs w !! f) as [data|]; [|done].
  cbn. unfold requests_post. destruct (http_post _ _ _) as [r|]; [|done].
  unfold resp_json, ret, raise. by destruct (json_loads (content r)).
Qed.

(** ** The modes of the script *)

Lemma collect_entries_run opts args w st w' t :
  collect_entries opts args w = (Ok st, w', t) -> w' = w /\ t = [].
Proof.
  intros H. unfold collect_entries in H. inv_run H.
  destruct a as [[v x] hl]. injection H as _ <- <-.
  apply process_opts_run in Hm as (-> & -> & _). by subst.
Qed.

Lemma check_all_run hl w :
  check_all hl w =
  (Ok tt, w, match getApikey "" w with
             | (Ok key, _, _) => map (fun h => EvGet (check_url key h)) hl
             | _ => []
             end).
Proof.
  induction hl as [|h rest IH];
    [by destruct (getApikey "" w) as [[[] ?] ?]|].
  cbn [check_all]. unfold bind at 1, try_. unfold bind at 1.
  unfold check. unfold bind at 1.
  destruct (getApikey "" w) as [[[key|e] w1] t1] eqn:E;
    pose proof E as [-> ->]%getApikey_world; cbn in IH.
  - unfold bind, requests_get. destruct (http (check_url key h)) as [resp|].
    + unfold resp_json. destruct (json_loads (content resp)); cbn;
        rewrite IH; done.
    + cbn. rewrite IH. done.
  - cbn. rewrite IH. done.
Qed.

Lemma upload_all_run hl w :
  upload_all hl w =
  (Ok tt, w, List.concat (map (fun f =>
     match getApikey "" w with
     | (Ok key, _, _) =>
         match fs w !! f with
         | Some d => [EvPost (upload_url key) "ufile" d]
         | None => []
         end
     | _ => []
     end) hl)).
Proof.
  induction hl as [|f rest IH];
    [by destruct (getApikey "" w) as [[[] ?] ?]|].
  cbn [upload_all]. unfold bindC at 1, tryC. unfold bindC at 1.
  rewrite upload_run.
  destruct (getApikey "" w) as [[[key|e] w1] t1] eqn:E.
  - destruct (fs w !! f) as [d|] eqn:Ef.
    + destruct (http_post _ _ _) as [r|];
        [destruct (json_loads (content r))|]; cbn; by rewrite IH, Ef.
    + cbn. by rewrite IH, Ef.
  - cbn. by rewrite IH.
Qed.

(** X3.  In the check mode (any capitalisation of [check]), once the
    options are parsed and the entry list is read, every entry is checked
    with one GET request each, in list order; failures are swallowed, the
    script ends normally and nothing is written.  Without an API key no
    request is made at all. *)
Theorem main_full_check_mode p act rest opts args w v x hl w' t :
  lower act = "check" ->
  getopt_vxf rest = Some (opts, args) ->
  collect_entries opts args w = (Ok (v, x, hl), w', t) ->
  main_full (p :: act :: rest) w =
  (Ok tt, w, map Ev (match getApikey "" w with
                     | (Ok key, _, _) => map (fun h => EvGet (check_url key h)) hl
                     | _ => []
                     end)).
Proof.
  intros Hact Hopt Hcol. cbn [main_full]. rewrite Hopt, Hact.
  pose proof Hcol as [-> ->]%collect_entries_run.
  rewrite (bindC_Ok _ _ _ _ _ _ (liftM_run _ _ _ _ _ Hcol)). cbn.
  unfold liftM. by rewrite check_all_run.
Qed.

(** X4.  In the upload mode (any capitalisation of [upload]), once the
    options are parsed and the entry list is read, every entry naming an
    existing file is posted once, in list order, even after an earlier
    entry failed; an entry naming no file is skipped with no request; the
    script ends normally and nothing is written.  Without an API key no
    request is made at all. *)
Theorem main_full_upload_mode p act rest opts args w v x hl w' t :
  lower act = "upload" ->
  getopt_vxf rest = Some (opts, args) ->
  collect_entries opts args w = (Ok (v, x, hl), w', t) ->
  main_full (p :: act :: rest) w =
  (Ok tt, w, List.concat (map (fun f =>
     match getApikey "" w with
     | (Ok key, _, _) =>
         match fs w !! f with
         | Some d => [EvPost (upload_url key) "ufile" d]
         | None => []
         end
     | _ => []
     end) hl)).
Proof.
  intros Hact Hopt Hcol. cbn [main_full]. rewrite Hopt, Hact.
  pose proof Hcol as [-> ->]%collect_entries_run.
  rewrite (bindC_Ok _ _ _ _ _ _ (liftM_run _ _ _ _ _ Hcol)). cbn.
  by rewrite upload_all_run.
Qed.

(** X5.  A mode written in ASCII other than [check], [download] and
    [upload] (compared case-insensitively) ends in [usage()], i.e.
    [SystemExit(-1)], after the entry list is read and before any request
    or write. *)
Theorem main_full_unknown_mode p act rest opts args w st w' t :
  Forall (fun c => (nat_of_ascii c < 128)%nat) (list_ascii_of_string act) ->
  lower act <> "check" -> lower act <> "download" -> lower act <> "upload" ->
  getopt_vxf rest = Some (opts, args) ->
  collect_entries opts args w = (Ok st, w', t) ->
  main_full (p :: act :: rest) w = (Err (SystemExit (-1)), w, []).
Proof.
  intros _ Hc Hd Hu Hopt Hcol. cbn [main_full]. rewrite Hopt.
  pose proof Hcol as [-> ->]%collect_entries_run.
  rewrite (bindC_Ok _ _ _ _ _ _ (liftM_run _ _ _ _ _ Hcol)).
  destruct st as [[v x] hl].
  apply String.eqb_neq in Hc, Hd, Hu. rewrite Hc, Hd, Hu. done.
Qed.

(** ** The download mode *)

Lemma keeps_ret {A} (a : A) : keeps_env (ret a).
Proof. by intros w r w' t [= _ <- _]. Qed.

Lemma keeps_raise {A} e : keeps_env (A:=A) (raise e).
Proof. by intros w r w' t [= _ <- _]. Qed.

Lemma keeps_bind {A C} (m : M A) (f : A -> M C) :
  keeps_env m -> (forall a, keeps_env (f a)) -> keeps_env (bind m f).
Proof.
  intros Hm Hf w r w' t. unfold bind.
  destruct (m w) as [[[a|e] w1] t1] eqn:E.
  - destruct (f a w1) as [[r2 w2] t2] eqn:E2. intros [= _ <- _].
    rewrite (Hf _ _ _ _ _ E2). exact (Hm _ _ _ _ E).
  - intros [= _ <- _]. exact (Hm _ _ _ _ E).
Qed.

Lemma keeps_try (m : M unit) : keeps_env m -> keeps_env (try_ m).
Proof.
  intros Hm w r w' t. unfold try_.
  destruct (m w) as [[[]] t1] eqn:E; intros [= _ <- _]; exact (Hm _ _ _ _ E).
Qed.

Lemma keeps_getenv k : keeps_env (getenv k).
Proof. by intros w r w' t [= _ <- _]. Qed.

Lemma keeps_isfile p : keeps_env (isfile p).
Proof. by intros w r w' t [= _ <- _]. Qed.

Lemma keeps_read_file p : keeps_env (read_file p).
Proof.
  intros w r w' t. unfold read_file. by destruct (fs w !! p); intros [= _ <- _].
Qed.

Lemma keeps_write_file p c : keeps_env (write_file p c).
Proof. by intros w r w' t [= _ <- _]. Qed.

Lemma keeps_unlink p : keeps_env (unlink p).
Proof.
  intros w r w' t. unfold unlink. by destruct (fs w !! p); intros [= _ <- _].
Qed.

Lemma keeps_requests_get url : keeps_env (requests_get url).
Proof.
  intros w r w' t. unfold requests_get. by destruct (http url); intros [= _ <- _].
Qed.

Lemma keeps_ensure_dir p : keeps_env (ensure_dir p).
Proof. by intros w r w' t [= _ <- _]. Qed.

Ltac keeps_step :=
  lazymatch goal with
  | |- keeps_env (bind _ _) => apply keeps_bind
  | |- keeps_env (try_ _) => apply keeps_try
  | |- keeps_env (if ?c then _ else _) => destruct c
  | |- keeps_env (match ?x with _ => _ end) => destruct x
  | |- keeps_env (ret _) => apply keeps_ret
  | |- keeps_env (raise _) => apply keeps_raise
  | |- keeps_env (getenv _) => apply keeps_getenv
  | |- keeps_env (isfile _) => apply keeps_isfile
  | |- keeps_env (read_file _) => apply keeps_read_file
  | |- keeps_env (write_file _ _) => apply keeps_write_file
  | |- keeps_env (unlink _) => apply keeps_unlink
  | |- keeps_env (ensure_dir _) => apply keeps_ensure_dir
  | |- keeps_env (requests_get _) => apply keeps_requests_get
  | |- keeps_env (getApikey _) => unfold getApikey
  | |- keeps_env (check _ _) => unfold check
  | |- keeps_env (resp_json _) => unfold resp_json
  | |- keeps_env (py_getitem _ _) => unfold py_getitem
  | |- keeps_env (py_isfile _) => unfold py_isfile
  | |- keeps_env (already_present _) => unfold already_present
  | |- keeps_env (py_add_zip _) => unfold py_add_zip
  | |- keeps_env (zip_open _) => unfold zip_open
  | |- keeps_env (zip_is_dir _) => unfold zip_is_dir
  | |- keeps_env (first_name _) => unfold first_name
  end.

Lemma keeps_extract_member pwd ents n : keeps_env (extract_member pwd ents n).
Proof. unfold extract_member. repeat (intros; cbv beta zeta; keeps_step). Qed.

Lemma keeps_extractall pwd ents : keeps_env (extractall pwd ents).
Proof.
  unfold extractall. induction (map zname ents) as [|n rest IH]; simpl.
  - apply keeps_ret.
  - apply keeps_bind; [apply keeps_extract_member|done].
Qed.

Ltac keeps :=
  repeat (intros; cbv beta zeta;
    first [ lazymatch goal with
            | |- keeps_env (extractall _ _) => apply keeps_extractall
            end
          | keeps_step ]).

Lemma keeps_download h k ex : keeps_env (download h k ex).
Proof. unfold download. keeps. Qed.

Lemma getApikey_env k w w1 r :
  environ w1 = environ w -> getApikey k w = (r, w, []) -> getApikey k w1 = (r, w1, []).
Proof.
  intros Henv. unfold getApikey.
  destruct (negb (String.eqb k "")); [by intros [= <-]|].
  unfold bind, getenv. rewrite Henv. cbn.
  destruct (environ w !! "JEBIO_APIKEY"); [by intros [= <-]|].
  destruct (negb (String.eqb APIKEY "")); by intros [= <-].
Qed.

Lemma download_checks_first h ex w key r w' t :
  h <> "" -> getApikey "" w = (Ok key, w, []) ->
  download h "" ex w = (r, w', t) -> EvGet (check_url key h) ∈ t.
Proof.
  intros Hh Hk. unfold download.
  apply String.eqb_neq in Hh. rewrite Hh. unfold bind at 1, check at 1.
  rewrite (bind_Ok _ _ _ _ _ _ Hk). unfold requests_get at 1, bind at 1.
  destruct (http (check_url key h)) as [resp|].
  - unfold resp_json. destruct (json_loads (content resp)) as [v|]; cbn.
    + match goal with |- (let (_, _) := ?X in _) = _ -> _ =>
        destruct X as [[r2 w2] t2] end.
      intros [= _ _ <-].
      by apply elem_of_cons; left.
    + intros [= _ _ <-]. by apply elem_of_cons; left.
  - intros [= _ _ <-]. by apply elem_of_cons; left.
Qed.

(** Without an API key, [download] raises before any request or write. *)
Lemma download_no_key h ex w e :
  getApikey "" w = (Err e, w, []) -> exists e', download h "" ex w = (Err e', w, []).
Proof.
  intros Hk. unfold download. destruct (String.eqb h ""); [by eexists|].
  assert (Hc : check h "" w = (Err e, w, [])).
  { unfold check. by rewrite (bind_Err _ _ _ _ _ _ Hk). }
  rewrite (bind_Err _ _ _ _ _ _ Hc). by eexists.
Qed.

Lemma download_all_run ex hl w :
  exists w' t, download_all ex hl w = (Ok tt, w', t) /\
    environ w' = environ w /\
    (forall key, getApikey "" w = (Ok key, w, []) ->
       forall h, h ∈ hl -> h <> "" -> EvGet (check_url key h) ∈ t) /\
    (forall e, getApikey "" w = (Err e, w, []) -> t = [] /\ w' = w).
Proof.
  revert w. induction hl as [|h rest IH]; intros w.
  - exists w, []. split; [done|]. split; [done|]. split; [|done].
    intros key _ h Hin. by apply elem_of_nil in Hin.
  - cbn [download_all]. unfold bind at 1, try_, bind at 1.
    destruct (download h "" ex w) as [[r1 w1] t1] eqn:E1.
    pose proof (keeps_download h "" ex _ _ _ _ E1) as Henv1.
    destruct (IH w1) as (w' & t' & Hrun & Henv' & Hin' & Hnk').
    exists w', (t1 ++ t')%list.
    assert (Hstep : (let '(r, w2, t2) := download_all ex rest w1 in
                     (r, w2, (match r1 with Ok _ => t1 ++ [] | Err _ => t1 end ++ t2)%list))
                    = (Ok tt, w', (t1 ++ t')%list)).
    { rewrite Hrun. by destruct r1; rewrite ?app_nil_r. }
    split; [destruct r1; exact Hstep|].
    split; [congruence|]. split.
    + intros key Hk h' Hh' Hne.
      apply elem_of_cons in Hh' as [->|Hh']; apply elem_of_app.
      * left. exact (download_checks_first _ _ _ _ _ _ _ Hne Hk E1).
      * right. apply (Hin' key); [|done|done].
        exact (getApikey_env _ _ _ _ Henv1 Hk).
    + intros e Hk. destruct (download_no_key h ex w e Hk) as [e' He'].
      rewrite E1 in He'. injection He' as -> -> ->.
      destruct (Hnk' e Hk) as [-> ->]. done.
Qed.

(** X6.  In the download mode (any capitalisation of [download]), once the
    options are parsed and the entry list is read, the script ends
    normally whatever the individual downloads do and leaves [os.environ]
    unchanged; when an API key resolves, every non-empty entry has been
    looked up with its [file/check] request, and when none resolves, no
    request is made and nothing is written. *)
Theorem main_full_download_mode p act rest opts args w v x hl w0 t0 :
  lower act = "download" ->
  getopt_vxf rest = Some (opts, args) ->
  collect_entries opts args w = (Ok (v, x, hl), w0, t0) ->
  exists w' t, main_full (p :: act :: rest) w = (Ok tt, w', map Ev t) /\
    environ w' = environ w /\
    (forall key, getApikey "" w = (Ok key, w, []) ->
       forall h, h ∈ hl -> h <> "" -> EvGet (check_url key h) ∈ t) /\
    (forall e, getApikey "" w = (Err e, w, []) -> t = [] /\ w' = w).
Proof.
  intros Hact Hopt Hcol. cbn [main_full]. rewrite Hopt, Hact.
  pose proof Hcol as [-> ->]%collect_entries_run.
  rewrite (bindC_Ok _ _ _ _ _ _ (liftM_run _ _ _ _ _ Hcol)). cbn.
  destruct (download_all_run x hl w) as (w' & t & Hrun & Henv & Hin & Hnk).
  exists w', t. unfold liftM. rewrite Hrun. split; [done|].
  split; [done|]. split; [done|].
  exact Hnk.
Qed.

(** ** Malformed command lines *)

Lemma getopt_valid_prefix opts l :
  Forall (fun o => o = ("-v", "") \/ o = ("-x", "") \/ o.1 = "-f") opts ->
  getopt_vxf (List.concat (map (fun o => if String.eqb o.1 "-f" then [o.1; o.2]
                                        else [o.1]) opts) ++ l) =
  match getopt_vxf l with
  | Some (os, args) => Some ((opts ++ os)%list, args)
  | None => None
  end.
Proof.
  induction 1 as [|o opts Ho _ IH].
  - cbn. by destruct (getopt_vxf l) as [[os args]|].
  - destruct Ho as [->|[->|Hf]].
    + cbn. rewrite IH. by destruct (getopt_vxf l) as [[os args]|].
    + cbn. rewrite IH. by destruct (getopt_vxf l) as [[os args]|].
    + destruct o as [f a]. simpl in Hf. subst f.
      cbn. rewrite IH. by destruct (getopt_vxf l) as [[os args]|].
Qed.

Lemma getopt_bad_letter c rest :
  short_has_arg c = None -> c <> "-"%char -> getopt_vxf (opt_name c :: rest) = None.
Proof.
  intros Hc Hdash. unfold opt_name. cbn [getopt_vxf].
  replace (String.eqb (String "-" (String c "")) "--") with false
    by (symmetry; apply String.eqb_neq; intros [= ->]; done).
  replace (String.prefix "--" (String "-" (String c "")))
    with false.
  2:{ cbn [String.prefix]. destruct (ascii_dec "-" "-"); [|done].
      destruct (ascii_dec "-" c); [by subst|done]. }
  replace (String.eqb (String "-" (String c "")) "-") with false
    by (symmetry; by apply String.eqb_neq).
  cbn. by rewrite Hc.
Qed.

Lemma getopt_long_option a rest :
  String.prefix "--" a = true -> a <> "--" -> getopt_vxf (a :: rest) = None.
Proof.
  intros Hp Hne. cbn [getopt_vxf].
  apply String.eqb_neq in Hne. by rewrite Hne, Hp.
Qed.

(** X7.  A command line that [getopt] rejects ends in [usage()], i.e.
    [SystemExit(-1)], before any file is read and before any request: an
    option letter other than [v], [x] and [f], a long option ([--name]),
    or an [-f] with no argument, after any valid options; the same holds
    when fewer than two arguments are given. *)
Theorem main_full_bad_command_line p act opts w :
  Forall (fun o => o = ("-v", "") \/ o = ("-x", "") \/ o.1 = "-f") opts ->
  let pre := List.concat (map (fun o => if String.eqb o.1 "-f" then [o.1; o.2]
                                       else [o.1]) opts) in
  (forall c rest, short_has_arg c = None -> c <> "-"%char ->
     main_full (p :: act :: pre ++ opt_name c :: rest) w = (Err (SystemExit (-1)), w, [])) /\
  (forall a rest, String.prefix "--" a = true -> a <> "--" ->
     main_full (p :: act :: pre ++ a :: rest) w = (Err (SystemExit (-1)), w, [])) /\
  main_full (p :: act :: pre ++ ["-f"]) w = (Err (SystemExit (-1)), w, []) /\
  main_full [] w = (Err (SystemExit (-1)), w, []) /\
  main_full [p] w = (Err (SystemExit (-1)), w, []).
Proof.
  intros Hopts pre. subst pre.
  split; [|split; [|split; [|done]]].
  - intros c rest Hc Hdash. cbn [main_full].
    by rewrite (getopt_valid_prefix _ _ Hopts), getopt_bad_letter.
  - intros a rest Hp Hne. cbn [main_full].
    by rewrite (getopt_valid_prefix _ _ Hopts), getopt_long_option.
  - cbn [main_full]. by rewrite (getopt_valid_prefix _ _ Hopts).
Qed.

(** ** download after a found lookup *)

Lemma already_present_false s w :
  (s = "" \/ fs w !! s = None \/
   exists d, fs w !! s = Some d /\ lower (sha256_hexdigest d) <> lower s) ->
  already_present (JStr s) w = (Ok false, w, []).
Proof.
  intros Hs. unfold already_present, truthy.
  destruct (String.eqb s "") eqn:E; [done|]. cbv beta iota delta [negb].
  apply String.eqb_neq in E.
  destruct Hs as [Hs|[Hs|(d & Hd & Hne)]]; [done| |].
  - assert (Hf : py_isfile (JStr s) w = (Ok false, w, [])).
    { unfold py_isfile, isfile. rewrite Hs. by rewrite andb_false_r. }
    by rewrite (bind_Ok _ _ _ _ _ _ Hf).
  - assert (Hf : py_isfile (JStr s) w = (Ok true, w, [])).
    { unfold py_isfile, isfile. rewrite (proj2 (String.eqb_neq s "") E), Hd. done. }
    rewrite (bind_Ok _ _ _ _ _ _ Hf). cbv beta iota.
    assert (Hr : read_file s w = (Ok d, w, [])) by (unfold read_file; by rewrite Hd).
    rewrite (bind_Ok _ _ _ _ _ _ Hr).
    apply String.eqb_neq in Hne. by rewrite Hne.
Qed.

(** [download] up to its [file/download] request, for a found entry whose
    sample is not in the working directory. *)
Ltac download_prefix Hh Hc Hcode Hne Hsha Hp Hk :=
  lazymatch type of Hc with
  | check _ _ ?w = (Ok (JObj ?kvs), _, _) =>
  lazymatch type of Hcode with
  | assoc _ _ = Some ?c =>
  lazymatch type of Hsha with
  | assoc _ _ = Some (JStr ?s) =>
  unfold download; rewrite (proj2 (String.eqb_neq _ "") Hh);
  rewrite (bind_Ok _ _ _ _ _ _ Hc);
  let Htr := fresh "Htr" in
  assert (Htr : truthy (JObj kvs) = true)
    by (destruct kvs; [cbn in Hcode; discriminate Hcode|done]);
  cbv beta zeta; rewrite Htr; cbv beta iota zeta delta [negb];
  let Hg := fresh "Hg" in
  assert (Hg : py_getitem (JObj kvs) "code" w = (Ok c, w, []))
    by (unfold py_getitem; rewrite Hcode; reflexivity);
  rewrite (bind_Ok _ _ _ _ _ _ Hg); cbv beta; rewrite Hne;
  let Hd := fresh "Hd" in
  assert (Hd : dict_get (JObj kvs) "sha256hash" = JStr s)
    by (unfold dict_get; rewrite Hsha; reflexivity);
  rewrite Hd; rewrite (bind_Ok _ _ _ _ _ _ Hp); cbv beta iota;
  rewrite (bind_Ok _ _ _ _ _ _ Hk); cbv beta; cbn [py_str]
  end end end.

(** X10.  In the same situation, when the [file/download] request fails to
    connect the call raises [ConnectionError], and when the response is an
    HTTP error or has an empty body it returns [None]; either way nothing
    is written. *)
Theorem download_failed_response h k ex w kvs c s key w1 t1 :
  h <> "" ->
  getApikey k w = (Ok key, w, []) ->
  check h k w = (Ok (JObj kvs), w1, t1) ->
  assoc "code" kvs = Some c -> py_ne_zero c = false ->
  assoc "sha256hash" kvs = Some (JStr s) ->
  (s = "" \/ fs w !! s = None \/
   exists d, fs w !! s = Some d /\ lower (sha256_hexdigest d) <> lower s) ->
  (forall resp, http (download_url key s) = Some resp ->
     resp_ok resp = false \/ content resp = "") ->
  download h k ex w =
  (match http (download_url key s) with
   | None => Err ConnectionError
   | Some _ => Ok JNull
   end, w, (t1 ++ [EvGet (download_url key s)])%list).
Proof.
  intros Hh Hk Hc Hcode Hne Hsha Hs Hbad.
  pose proof Hc as (key' & _ & -> & ->)%check_Ok.
  pose proof (already_present_false s w Hs) as Hp.
  download_prefix Hh Hc Hcode Hne Hsha Hp Hk.
  unfold bind at 1, requests_get at 1.
  destruct (http (download_url key s)) as [resp|] eqn:Hhttp; [|done].
  destruct (Hbad resp eq_refl) as [Hr|Hr].
  - rewrite Hr. done.
  - rewrite Hr, orb_true_r. done.
Qed.

(** ** Entries of the command line *)

Lemma string_of_list_ascii_app l1 l2 :
  string_of_list_ascii (l1 ++ l2) =
  (string_of_list_ascii l1 ++ string_of_list_ascii l2)%string.
Proof. induction l1 as [|c l1 IH]; [done|]. simpl. by rewrite IH. Qed.

Lemma split_comma_aux_cons cur l : exists p ps, split_comma_aux cur l = p :: ps.
Proof.
  revert cur. induction l as [|c t IH]; intros cur; [by eexists _, []|].
  simpl. destruct (Ascii.eqb c ","); [by eexists _, _|apply IH].
Qed.

Lemma join_split_comma_aux cur l :
  join_comma (split_comma_aux cur l) = string_of_list_ascii (rev cur ++ l).
Proof.
  revert cur. induction l as [|c t IH]; intros cur.
  - simpl. by rewrite app_nil_r.
  - simpl. destruct (Ascii.eqb c ",") eqn:Ec.
    + apply Ascii.eqb_eq in Ec as ->.
      destruct (split_comma_aux_cons [] t) as (p & ps & Hps).
      assert (Hj : forall x, join_comma (x :: split_comma_aux [] t) =
                            (x ++ "," ++ join_comma (split_comma_aux [] t))%string)
        by (intros x; by rewrite Hps).
      rewrite Hj, IH. cbn [rev app]. rewrite string_of_list_ascii_app. done.
    + rewrite IH. simpl. by rewrite <- app_assoc.
Qed.

Lemma split_comma_aux_no_comma cur l p :
  ","%char ∉ cur -> p ∈ split_comma_aux cur l -> ","%char ∉ list_ascii_of_string p.
Proof.
  revert cur. induction l as [|c t IH]; intros cur Hcur Hp; simpl in Hp.
  - apply list_elem_of_singleton in Hp as ->.
    rewrite list_ascii_of_string_of_list_ascii.
    intros Hin. apply Hcur. rewrite list_elem_of_In, <- in_rev in Hin.
    by apply list_elem_of_In.
  - destruct (Ascii.eqb c ",") eqn:Ec.
    + apply elem_of_cons in Hp as [->|Hp].
      * rewrite list_ascii_of_string_of_list_ascii.
        intros Hin. apply Hcur. rewrite list_elem_of_In, <- in_rev in Hin.
        by apply list_elem_of_In.
      * apply (IH []); [by intros ?%elem_of_nil|done].
    + apply (IH (c :: cur)); [|done].
      intros [Heq|Hin]%elem_of_cons; [|done].
      subst c. by rewrite Ascii.eqb_refl in Ec.
Qed.

(** X12.  [arg.split(',')] cuts a positional argument into pieces that hold
    no comma and that [','.join] puts back together into the argument; it
    gives at least one piece (the empty string for an empty argument). *)
Theorem split_comma_join a :
  join_comma (split_comma a) = a /\
  (forall p, p ∈ split_comma a -> ","%char ∉ list_ascii_of_string p) /\
  split_comma a <> [].
Proof.
  unfold split_comma. split; [|split].
  - rewrite join_split_comma_aux. simpl. apply string_of_list_ascii_of_string.
  - intros p Hp.
    apply (split_comma_aux_no_comma [] (list_ascii_of_string a) p);
      [by intros ?%elem_of_nil|done].
  - destruct (split_comma_aux_cons [] (list_ascii_of_string a)) as (p & ps & ->).
    done.
Qed.

End Extras.

(** ** Instances of the further properties *)

Lemma main_full_check_mode_witness :
  lower "CHECK" = "check" /\
  getopt_vxf ["-f"; "list.txt"; "x,abc123"] = Some ([("-f", "list.txt")], ["x,abc123"]) /\
  collect_entries [("-f", "list.txt")] ["x,abc123"] demo_world_list =
    (Ok (false, false, ["abc123"; "x"]), demo_world_list, []) /\
  main_full (B:=demo_backend) (P:=demo_post)
    ["jebio.py"; "CHECK"; "-f"; "list.txt"; "x,abc123"] demo_world_list =
  (Ok tt, demo_world_list,
   [Ev (EvGet (check_url "K" "abc123")); Ev (EvGet (check_url "K" "x"))]).
Proof.
  split; [vm_compute; reflexivity|]. split; [vm_compute; reflexivity|].
  split; [vm_compute; reflexivity|].
  rewrite (main_full_check_mode (B:=demo_backend) (P:=demo_post) "jebio.py" "CHECK"
             ["-f"; "list.txt"; "x,abc123"] [("-f", "list.txt")] ["x,abc123"]
             demo_world_list false false ["abc123"; "x"] demo_world_list []).
  all: vm_compute; reflexivity.
Defined.

Lemma main_full_upload_mode_witness :
  lower "Upload" = "upload" /\
  getopt_vxf ["list.txt,missing.bin"] = Some ([], ["list.txt,missing.bin"]) /\
  collect_entries [] ["list.txt,missing.bin"] demo_world_list =
    (Ok (false, false, ["missing.bin"; "list.txt"]), demo_world_list, []) /\
  main_full (B:=demo_backend) (P:=demo_post)
    ["jebio.py"; "Upload"; "list.txt,missing.bin"] demo_world_list =
  (Ok tt, demo_world_list,
   [EvPost (upload_url "K") "ufile"
      ("# comment" ++ String "010" "" ++ String "010" "   " ++ String "010" ""
       ++ "abc123" ++ String "010" "")]).
Proof.
  split; [vm_compute; reflexivity|]. split; [vm_compute; reflexivity|].
  split; [vm_compute; reflexivity|].
  rewrite (main_full_upload_mode (B:=demo_backend) (P:=demo_post) "jebio.py" "Upload"
             ["list.txt,missing.bin"] [] ["list.txt,missing.bin"]
             demo_world_list false false ["missing.bin"; "list.txt"] demo_world_list []).
  all: vm_compute; reflexivity.
Defined.

Lemma main_full_unknown_mode_witness :
  Forall (fun c => (nat_of_ascii c < 128)%nat) (list_ascii_of_string "foo") /\
  lower "foo" <> "check" /\ lower "foo" <> "download" /\ lower "foo" <> "upload" /\
  getopt_vxf ["-v"; "abc123"] = Some ([("-v", "")], ["abc123"]) /\
  collect_entries [("-v", "")] ["abc123"] demo_world =
    (Ok (true, false, ["abc123"]), demo_world, []) /\
  main_full (B:=demo_backend) (P:=demo_post) ["jebio.py"; "foo"; "-v"; "abc123"] demo_world =
  (Err (SystemExit (-1)), demo_world, []).
Proof.
  split; [apply (bool_decide_unpack _); vm_compute; exact I|].
  split; [vm_compute; discriminate|]. split; [vm_compute; discriminate|].
  split; [vm_compute; discriminate|]. split; [vm_compute; reflexivity|].
  split; [vm_compute; reflexivity|].
  apply (main_full_unknown_mode (B:=demo_backend) (P:=demo_post) "jebio.py" "foo"
           ["-v"; "abc123"] [("-v", "")] ["abc123"] demo_world (true, false, ["abc123"])
           demo_world []);
    [apply (bool_decide_unpack _); vm_compute; exact I|..];
    vm_compute; try reflexivity; discriminate.
Defined.

Lemma main_full_download_mode_witness :
  lower "Download" = "download" /\
  getopt_vxf ["-x"; "abc123,gone"] = Some ([("-x", "")], ["abc123,gone"]) /\
  collect_entries [("-x", "")] ["abc123,gone"] demo_world =
    (Ok (false, true, ["gone"; "abc123"]), demo_world, []) /\
  exists w' t,
    main_full (B:=demo_backend) (P:=demo_post)
      ["jebio.py"; "Download"; "-x"; "abc123,gone"] demo_world = (Ok tt, w', map Ev t) /\
    environ w' = environ demo_world /\
    (forall key, getApikey (B:=demo_backend) "" demo_world = (Ok key, demo_world, []) ->
       forall h, h ∈ ["gone"; "abc123"] -> h <> "" -> EvGet (check_url key h) ∈ t) /\
    (forall e, getApikey (B:=demo_backend) "" demo_world = (Err e, demo_world, []) ->
       t = [] /\ w' = demo_world).
Proof.
  split; [vm_compute; reflexivity|]. split; [vm_compute; reflexivity|].
  split; [vm_compute; reflexivity|].
  apply (main_full_download_mode (B:=demo_backend) (P:=demo_post) "jebio.py" "Download"
           ["-x"; "abc123,gone"] [("-x", "")] ["abc123,gone"] demo_world false true
           ["gone"; "abc123"] demo_world []); vm_compute; reflexivity.
Defined.

Lemma main_full_bad_command_line_witness :
  Forall (fun o => o = ("-v", "") \/ o = ("-x", "") \/ o.1 = "-f") [("-v", ""); ("-f", "l")] /\
  main_full (B:=demo_backend) (P:=demo_post)
    ["jebio.py"; "check"; "-v"; "-f"; "l"; "-z"; "abc123"] demo_world =
    (Err (SystemExit (-1)), demo_world, []) /\
  main_full (B:=demo_backend) (P:=demo_post)
    ["jebio.py"; "check"; "-v"; "-f"; "l"; "--help"] demo_world =
    (Err (SystemExit (-1)), demo_world, []) /\
  main_full (B:=demo_backend) (P:=demo_post)
    ["jebio.py"; "check"; "-v"; "-f"; "l"; "-f"] demo_world =
    (Err (SystemExit (-1)), demo_world, []).
Proof.
  assert (Hf : Forall (fun o => o = ("-v", "") \/ o = ("-x", "") \/ o.1 = "-f")
                 [("-v", ""); ("-f", "l")]).
  { constructor; [left; done|]. constructor; [right; right; done|]. constructor. }
  destruct (main_full_bad_command_line (B:=demo_backend) (P:=demo_post)
              "jebio.py" "check" [("-v", ""); ("-f", "l")] demo_world Hf)
    as (Hc & Hl & Hd & _).
  split; [exact Hf|].
  split; [apply (Hc "z"%char ["abc123"]); [vm_compute; reflexivity|discriminate]|].
  split; [apply (Hl "--help" []); [vm_compute; reflexivity|discriminate]|].
  exact Hd.
Defined.

Lemma download_failed_response_witness :
  download (B:=demo_backend_down) "abc123" "" true demo_world =
  (Ok JNull, demo_world,
   [EvGet (check_url "K" "abc123"); EvGet (download_url "K" "abcd")]).
Proof.
  rewrite (download_failed_response (B:=demo_backend_down) "abc123" "" true demo_world
             [("code", JNum 0); ("sha256hash", JStr "abcd")] (JNum 0) "abcd" "K"
             demo_world [EvGet (check_url "K" "abc123")]).
  - vm_compute; reflexivity.
  - discriminate.
  - vm_compute; reflexivity.
  - vm_compute; reflexivity.
  - reflexivity.
  - reflexivity.
  - reflexivity.
  - right; left. reflexivity.
  - intros resp Hr. vm_compute in Hr. injection Hr as <-. left. reflexivity.
Defined.
